(** * DigitalOcean modules: [digital_ocean_tag] and [do_droplet]

    A shallow embedding of the two Ansible modules under
    [cloud/digital_ocean/] and the properties their specification states.

    The modules are Python 2 scripts that talk to a remote REST service,
    read the wall clock and end the process through [exit_json] and
    [fail_json].  The embedding keeps these effects explicit:

    - values parsed from JSON are terms of [json]; a Python dict is a
      finite map from strings ([gmap]), an instance's [__dict__] and the
      keyword arguments of a call included;
    - a computation is a function from a state to a [result] and a new
      state ([M]); exceptions, [SystemExit] among them, are the [Raise]
      results;
    - the remote service is any instance of the class [Remote]; the world
      records every request sent, every sleep and the clock, in seconds.

    Outside the embedding: floating point JSON numbers, the calls of the
    debugging logger [q], transport failures of the HTTP libraries, and
    documents whose keys reuse the names of the methods of [Droplet]. *)

From Equations Require Import Equations.
From stdpp Require Import base option list strings gmap pretty.
From Stdlib Require Import ZArith Lia Ascii String.

Local Open Scope string_scope.
Local Open Scope list_scope.
Local Open Scope Z_scope.

(** ** Python values *)

#[warnings="-register-all"]
Inductive json :=
| JNull
| JBool (b : bool)
| JInt (n : Z)
| JStr (s : string)
| JList (l : list json)
| JDict (kv : gmap string json).

Abbreviation dict := (gmap string json).

(** [len(d) == 0] *)
Definition dict_is_empty (kv : dict) : bool :=
  match map_to_list kv with [] => true | _ => false end.

(** Parameters of the modules are [None], an [int] or a [str]. *)
Inductive atom :=
| ANone
| AInt (n : Z)
| AStr (s : string).

Definition atom_of_int (o : option Z) : atom :=
  match o with Some n => AInt n | None => ANone end.

Definition json_of_atom (a : atom) : json :=
  match a with ANone => JNull | AInt n => JInt n | AStr s => JStr s end.

(** [bool(v)] *)
Definition truthy (v : json) : bool :=
  match v with
  | JNull => false
  | JBool b => b
  | JInt n => negb (n =? 0)
  | JStr s => negb (String.eqb s "")
  | JList l => match l with [] => false | _ => true end
  | JDict kv => negb (dict_is_empty kv)
  end.

Definition truthy_atom (a : atom) : bool := truthy (json_of_atom a).

(** [v == a] for a value and a parameter; [True == 1] and [False == 0]
    hold in Python. *)
Definition py_eq (v : json) (a : atom) : bool :=
  match v, a with
  | JNull, ANone => true
  | JInt n, AInt m => n =? m
  | JBool b, AInt m => (if b then 1 else 0) =? m
  | JStr s, AStr t => String.eqb s t
  | _, _ => false
  end.

(** ** Strings *)

(** [t.format(a, b, ...)] for templates whose only fields are [{}]. *)
Fixpoint py_format (t : string) (args : list string) : string :=
  match t with
  | String "{"%char (String "}"%char rest) =>
      match args with
      | a :: args' => String.append a (py_format rest args')
      | [] => py_format rest []
      end
  | String c rest => String c (py_format rest args)
  | EmptyString => EmptyString
  end.

(** [t % args] for templates whose only conversions are [%s]. *)
Fixpoint py_percent (t : string) (args : list string) : string :=
  match t with
  | String "%"%char (String "s"%char rest) =>
      match args with
      | a :: args' => String.append a (py_percent rest args')
      | [] => py_percent rest []
      end
  | String c rest => String c (py_percent rest args)
  | EmptyString => EmptyString
  end.

(** [str(v)] of a scalar. *)
Definition py_str (v : json) : string :=
  match v with
  | JNull => "None"
  | JBool true => "True"
  | JBool false => "False"
  | JInt n => pretty n
  | JStr s => s
  | JList _ => "[...]"
  | JDict _ => "{...}"
  end.

Fixpoint is_prefix (p s : string) : bool :=
  match p, s with
  | EmptyString, _ => true
  | String a p', String b s' => if Ascii.eqb a b then is_prefix p' s' else false
  | String _ _, EmptyString => false
  end.

(** [p in s] for two strings. *)
Fixpoint is_substring (p s : string) : bool :=
  is_prefix p s ||
  match s with
  | EmptyString => false
  | String _ s' => is_substring p s'
  end.

Fixpoint lower (s : string) : string :=
  match s with
  | EmptyString => EmptyString
  | String c s' =>
      let n := Ascii.nat_of_ascii c in
      String (if (65 <=? n)%nat && (n <=? 90)%nat then Ascii.ascii_of_nat (n + 32) else c)
             (lower s')
  end.

Example format_bearer : py_format "Bearer {}" ["XXX"] = "Bearer XXX".
Proof. reflexivity. Qed.

Example format_percent_template : py_format "/droplets/%s" [py_str (JInt 42)] = "/droplets/%s".
Proof. reflexivity. Qed.

Example percent_url : py_percent "%s/%s" ["https://host/v2"; "droplets"] = "https://host/v2/droplets".
Proof. reflexivity. Qed.

Example lower_True : lower (py_str (JBool true)) = "true".
Proof. reflexivity. Qed.

(** ** Exceptions and the state monad *)

(** What a module hands back to Ansible: the keyword arguments of
    [module.exit_json] or of [module.fail_json]. *)
Inductive report :=
| ExitJson (kw : dict)
| FailJson (kw : dict).

(** The exceptions the two modules can meet.  [exit_json] and
    [fail_json] end the process by raising [SystemExit]. *)
Inductive exn :=
| SystemExit (r : report)
| TimeoutError (msg : string) (id : json)
| KeyError (key : string)
| TypeError (what : string)
| AttributeError (attr : string)
| AssertionError (msg : string)
| UnboundLocalError (var : string)
| ValueError (what : string)
| HTTPError (status : Z).

Inductive result (A : Type) :=
| Ok (a : A)
| Raise (e : exn).
Arguments Ok {A} a.
Arguments Raise {A} e.

(** [isinstance(e, Exception)]: everything but [SystemExit]. *)
Definition is_Exception (e : exn) : bool :=
  match e with SystemExit _ => false | _ => true end.

Definition is_TimeoutError (e : exn) : bool :=
  match e with TimeoutError _ _ => true | _ => false end.

Definition is_KeyError (e : exn) : bool :=
  match e with KeyError _ => true | _ => false end.

(** [str(e)]; the texts of the built-in exceptions are abridged. *)
Definition str_exn (e : exn) : string :=
  match e with
  | SystemExit _ => "SystemExit"
  | TimeoutError msg _ => msg
  | KeyError k => String.append "'" (String.append k "'")
  | TypeError what => what
  | AttributeError a => String.append "object has no attribute " a
  | AssertionError msg => msg
  | UnboundLocalError v => String.append "local variable referenced before assignment: " v
  | ValueError what => what
  | HTTPError st => String.append (pretty st) " Error"
  end.

Definition M (St A : Type) : Type := St -> result A * St.

Definition ret {St A} (a : A) : M St A := fun s => (Ok a, s).

Definition raise {St A} (e : exn) : M St A := fun s => (Raise e, s).

Definition bind {St A B} (m : M St A) (k : A -> M St B) : M St B :=
  fun s => match m s with
           | (Ok a, s') => k a s'
           | (Raise e, s') => (Raise e, s')
           end.

Notation "'let*' x ':=' m 'in' k" := (bind m (fun x => k))
  (at level 10, x pattern, m at level 100, k at level 200).

(** [try: body  except <catches> as e: handler e] *)
Definition try_except {St A} (body : M St A) (catches : exn -> bool) (handler : exn -> M St A) : M St A :=
  fun s => match body s with
           | (Raise e, s') => if catches e then handler e s' else (Raise e, s')
           | r => r
           end.

Definition exit_json {St A} (kw : dict) : M St A := raise (SystemExit (ExitJson kw)).

Definition fail_json {St A} (kw : dict) : M St A := raise (SystemExit (FailJson kw)).

(** *** Subscripts, membership and iteration over parsed JSON

    These computations touch no state: they live in [result] and enter
    a stateful computation through [pure]. *)

Definition rbind {A B} (r : result A) (k : A -> result B) : result B :=
  match r with Ok a => k a | Raise e => Raise e end.

Notation "'let+' x ':=' m 'in' k" := (rbind m (fun x => k))
  (at level 10, x pattern, m at level 100, k at level 200).

Definition pure {St A} (r : result A) : M St A := fun s => (r, s).

(** [v[k]] for a string key. *)
Definition getitem (v : json) (k : string) : result json :=
  match v with
  | JDict kv => match (kv !! k) with Some x => Ok x | None => Raise (KeyError k) end
  | JList _ | JStr _ => Raise (TypeError "indices must be integers")
  | _ => Raise (TypeError "object has no attribute __getitem__")
  end.

(** [k in v] *)
Definition contains (k : string) (v : json) : result bool :=
  match v with
  | JDict kv => Ok (bool_decide (is_Some (kv !! k)))
  | JList l => Ok (existsb (fun x => py_eq x (AStr k)) l)
  | JStr s => Ok (is_substring k s)
  | _ => Raise (TypeError "argument is not iterable")
  end.

Fixpoint chars (s : string) : list json :=
  match s with
  | EmptyString => []
  | String c s' => JStr (String c EmptyString) :: chars s'
  end.

(** The items [for x in v] visits. *)
Definition iter (v : json) : result (list json) :=
  match v with
  | JList l => Ok l
  | JStr s => Ok (chars s)
  | JDict kv => Ok (map (fun p => JStr (fst p)) (map_to_list kv))
  | _ => Raise (TypeError "object is not iterable")
  end.

(** The items [v[i] for i in range(len(v))] visits. *)
Definition index_items (v : json) : result (list json) :=
  match v with
  | JList l => Ok l
  | JStr s => Ok (chars s)
  | JDict kv => if dict_is_empty kv then Ok [] else Raise (KeyError "0")
  | _ => Raise (TypeError "object has no len()")
  end.

Fixpoint mapR {A B} (f : A -> result B) (l : list A) : result (list B) :=
  match l with
  | [] => Ok []
  | x :: rest => let+ y := f x in let+ ys := mapR f rest in Ok (y :: ys)
  end.

(** ** The remote service and the world *)

Record request := Request {
  method : string;
  url : string;
  headers : list (string * string);
  data : option json
}.

(** A response as the modules read it: the status code, the body when it
    parses as JSON, and the seconds the exchange took. *)
Record response := Response {
  status_code : Z;
  body : option json;
  elapsed : N
}.

(** [response.json] of the droplet module, for the exchanges modelled
    here, whose body is a JSON document or unreadable: [None] without a
    document.  The case in which the property itself raises is that of
    [Response.json] below, and lies outside these exchanges. *)
Definition json_of (r : response) : json :=
  match body r with Some j => j | None => JNull end.

Class Remote (S : Type) := serve : request -> S -> response * S.

Record world (S : Type) := World {
  svc : S;
  now : Z;
  sent : list request;
  slept : list (Z * Z);
  stdout : list json
}.
Arguments World {S} _ _ _ _ _.
Arguments svc {S} _.
Arguments now {S} _.
Arguments sent {S} _.
Arguments slept {S} _.
Arguments stdout {S} _.

Section Effects.
Context {S : Type} `{!Remote S}.

(** One HTTP exchange: the request goes to the service, the clock moves
    by the time the exchange took. *)
Definition http (req : request) : M (world S) response :=
  fun w =>
    let '(r, s') := serve req (svc w) in
    (Ok r, World s' (now w + Z.of_N (elapsed r)) (sent w ++ [req]) (slept w) (stdout w)).

(** [time.time()] *)
Definition time_time : M (world S) Z := fun w => (Ok (now w), w).

(** [time.sleep(d)]; each sleep is recorded with the time it started. *)
Definition time_sleep (d : Z) : M (world S) unit :=
  fun w =>
    if d <? 0 then (Raise (ValueError "sleep length must be non-negative"), w)
    else (Ok tt, World (svc w) (now w + d) (sent w) (slept w ++ [(now w, d)]) (stdout w)).

(** [print(...)] *)
Definition print (j : json) : M (world S) unit :=
  fun w => (Ok tt, World (svc w) (now w) (sent w) (slept w) (stdout w ++ [j])).

(** The response a request would get in the world [w], and the world
    after the exchange. *)
Definition answer (req : request) (w : world S) : response := fst (serve req (svc w)).

Definition after (req : request) (w : world S) : world S :=
  World (snd (serve req (svc w))) (now w + Z.of_N (elapsed (answer req w)))
        (sent w ++ [req]) (slept w) (stdout w).

End Effects.

(** *** What an invocation ends with *)

(** The [changed] flag of a run that ended in [exit_json]. *)
Definition changed_of {A} (r : result A) : option bool :=
  match r with
  | Raise (SystemExit (ExitJson kw)) =>
      match (kw !! "changed") with
      | Some (JBool b) => Some b
      | _ => None
      end
  | _ => None
  end.

(** The run ended in [fail_json]. *)
Definition failed {A} (r : result A) : bool :=
  match r with
  | Raise (SystemExit (FailJson _)) => true
  | _ => false
  end.

(** *** Reading a computation backwards *)

Lemma bind_Ok {St A B} (m : M St A) (k : A -> M St B) s b s' :
  bind m k s = (Ok b, s') -> exists a s1, m s = (Ok a, s1) /\ k a s1 = (Ok b, s').
Proof.
  unfold bind. destruct (m s) as [[a|e] s1]; [eauto | discriminate].
Qed.

Lemma bind_eq_Ok {St A B} (m : M St A) (k : A -> M St B) s a s1 :
  m s = (Ok a, s1) -> bind m k s = k a s1.
Proof. unfold bind. intros ->. reflexivity. Qed.

(** Keeps the equation of a [with] clause of a function defined by
    well-founded recursion. *)
Definition inspect {A : Type} (x : A) : { y : A | x = y } := exist _ x eq_refl.

(** ** Credential resolution

    Both modules start with
    [module.params['api_token'] or os.environ['DO_API_TOKEN'] or os.environ['DO_API_KEY']]
    inside [try: ... except KeyError]. *)

(** [os.environ[k]] *)
Definition environ_get (environ : gmap string string) (k : string) : result string :=
  match environ !! k with
  | Some v => Ok v
  | None => Raise (KeyError k)
  end.

Definition load_api_token (param : option string) (environ : gmap string string) : result string :=
  let from_environ :=
    let+ t := environ_get environ "DO_API_TOKEN" in
    if truthy (JStr t) then Ok t else environ_get environ "DO_API_KEY" in
  match param with
  | Some t => if truthy (JStr t) then Ok t else from_environ
  | None => from_environ
  end.

(** [e.message] *)
Definition exn_message (e : exn) : string :=
  match e with KeyError k => k | _ => str_exn e end.

Definition resolve_api_token {St} (param : option string) (environ : gmap string string) : M St string :=
  try_except (pure (load_api_token param environ)) is_KeyError
    (fun e => fail_json {[ "msg" := JStr (py_percent "Unable to load %s" [exn_message e]) ]}).

(** ** [do_droplet.py] *)

Module DoDroplet.

(** An instance of [Droplet]: its [__dict__]. *)
Record Droplet := Obj { attrs : dict }.

(** What the variable [droplet] of [core] can hold: [False], an instance
    of [Droplet], or a plain parsed document. *)
Inductive value :=
| VFalse
| VDroplet (d : Droplet)
| VJson (j : json).

(** [bool(v)]; [Droplet] defines neither [__nonzero__] nor [__len__]. *)
Definition value_truthy (v : value) : bool :=
  match v with
  | VFalse => false
  | VDroplet _ => true
  | VJson j => truthy j
  end.

(** [droplet.id == id], [droplet.name == name], [droplet.status ==
    'active'] and [bool(droplet.ip_address)] where the attribute exists. *)
Definition attr_is (attr : string) (key : atom) (d : Droplet) : bool :=
  match (attrs d !! attr) with
  | Some v => py_eq v key
  | None => false
  end.

Definition active (d : Droplet) : bool := attr_is "status" (AStr "active") d.

Definition has_address (d : Droplet) : bool :=
  match (attrs d !! "ip_address") with
  | Some v => truthy v
  | None => false
  end.

(** What the wait loop needs of an instance: an id, a status, and an
    address attribute once it is active. *)
Definition waitable (d : Droplet) : Prop :=
  is_Some (attrs d !! "id") /\
  is_Some (attrs d !! "status") /\
  (active d = false \/ is_Some (attrs d !! "ip_address")).

(** *** class Response

    [Response(resp, info)] wraps what [fetch_url] returns: [resp] is
    [None] or an object whose [read()] gives the text of the body, and
    [info] is a dict.  [json.loads] belongs to the standard library and
    stays a parameter: it has no value for a text that is not JSON. *)

Module Response.

Record t := Make { body : option string; info : dict }.

(** [self.body = None; if resp: self.body = resp.read(); self.info = info] *)
Definition __init__ (resp : option string) (info : dict) : t := Make resp info.

(** The property [status_code]: [self.info["status"]] *)
Definition status_code (self : t) : result json := getitem (JDict (info self)) "status".

Section Json.
Variable loads : string -> option json.

(** [json.loads(text)] *)
Definition json_loads (text : json) : result json :=
  match text with
  | JStr s =>
      match loads s with
      | Some j => Ok j
      | None => Raise (ValueError "No JSON object could be decoded")
      end
  | _ => Raise (TypeError "expected string or buffer")
  end.

(** The property [json]. *)
Definition json (self : t) : result json :=
  if negb (truthy (from_option JStr JNull (body self))) then
    let+ has_body := contains "body" (JDict (info self)) in
    if has_body : bool then
      let+ text := getitem (JDict (info self)) "body" in
      json_loads text
    else Ok JNull
  else
    match json_loads (from_option JStr JNull (body self)) with
    | Raise (ValueError _) => Ok JNull
    | r => r
    end.

End Json.

End Response.

(** *** class Rest *)

Definition baseurl : string := "https://api.digitalocean.com/v2".

Definition rest_headers (api_token : string) : list (string * string) :=
  [("Authorization", py_format "Bearer {}" [api_token]);
   ("Content-type", "application/json")].

(** Every path in the source is a non-empty literal. *)
Definition _url_builder (path : string) : string :=
  let path := match path with String "/"%char p => p | _ => path end in
  py_percent "%s/%s" [baseurl; path].

Section Droplet.
Context {S : Type} `{!Remote S}.

(** The class-level slot [Droplet.api_token], set by [Droplet.setup]. *)
Variable api_token : string.

(** [Rest(module, api_token).send(method, path, data)]; [module.jsonify]
    turns the default [data=None] into the body [null]. *)
Definition send (method path : string) (data : json) : M (world S) response :=
  http (Request method (_url_builder path) (rest_headers api_token) (Some data)).

(** The request of [_all_active_droplets]. *)
Definition listing_request : request :=
  Request "GET" (_url_builder "/droplets?per_page=2") (rest_headers api_token) (Some JNull).

(** The request of [_show_droplet], whatever the id. *)
Definition show_request : request :=
  Request "GET" (_url_builder "/droplets/%s") (rest_headers api_token) (Some JNull).

(** *** class Droplet *)

(** [Droplet(droplet_json)]: [status] starts as ['new'], then the
    document's entries are merged into [__dict__].  A document that is
    neither an object nor empty is refused. *)
Definition __init__ (droplet_json : json) : result Droplet :=
  match droplet_json with
  | JDict kv => Ok (Obj (kv ∪ {[ "status" := JStr "new" ]}))
  | JList [] | JStr EmptyString => Ok (Obj {[ "status" := JStr "new" ]})
  | JList _ | JStr _ => Raise (ValueError "dictionary update sequence element has the wrong length")
  | _ => Raise (TypeError "object is not iterable")
  end.

(** Lifting a class-level computation to a method of an instance. *)
Definition lift {A} (m : M (world S) A) : M (Droplet * world S) A :=
  fun st => let '(r, w') := m (snd st) in (r, (fst st, w')).

(** [self.<name>] *)
Definition getattr (name : string) : M (Droplet * world S) json :=
  fun st => match (attrs (fst st) !! name) with
            | Some v => (Ok v, st)
            | None => (Raise (AttributeError name), st)
            end.

(** [for k, v in kv.iteritems(): setattr(self, k, v)] *)
Definition setattrs (kv : dict) : M (Droplet * world S) unit :=
  fun st => (Ok tt, (Obj (kv ∪ attrs (fst st)), snd st)).

Definition is_powered_on : M (Droplet * world S) bool :=
  let* status := getattr "status" in
  ret (py_eq status (AStr "active")).

Fixpoint populate_networks (networks : list json) (droplet : dict) : result dict :=
  match networks with
  | [] => Ok droplet
  | network :: rest =>
      let+ type := getitem network "type" in
      let+ droplet :=
        if py_eq type (AStr "public")
        then let+ ip := getitem network "ip_address" in Ok (<["ip_address" := ip]> droplet)
        else Ok droplet in
      let+ type := getitem network "type" in
      let+ droplet :=
        if py_eq type (AStr "private")
        then let+ ip := getitem network "ip_address" in Ok (<["private_ip_address" := ip]> droplet)
        else Ok droplet in
      populate_networks rest droplet
  end.

Definition _populate_droplet_ips (droplet : json) : result dict :=
  match droplet with
  | JDict kv =>
      let droplet := <["ip_address" := JStr ""]> kv in
      let+ networks := getitem (JDict droplet) "networks" in
      let+ v4 := getitem networks "v4" in
      let+ items := index_items v4 in
      populate_networks items droplet
  | _ => Raise (TypeError "object does not support item assignment")
  end.

(** The path is the result of ["/droplets/%s".format(id)]. *)
Definition _show_droplet (id : json) : M (world S) dict :=
  let* response := send "GET" (py_format "/droplets/%s" [py_str id]) JNull in
  let* droplet := pure (getitem (json_of response) "droplet") in
  pure (_populate_droplet_ips droplet).

(** [pass] *)
Definition _power_on_droplet (id : json) : M (world S) (option dict) := ret None.

(** [pass] *)
Definition _destroy_droplet (id : json) : M (world S) json := ret JNull.

(** The formal parameters of [_destroy_droplet], [cls] apart. *)
Definition _destroy_droplet_formals : list string := ["id"].

(** A call [f(..., k1=.., k2=..)]: a keyword that [f] does not declare
    is a [TypeError] before the body runs. *)
Definition call_kw {St A} (formals kwargs : list string) (body : M St A) : M St A :=
  if forallb (fun k => bool_decide (k ∈ formals)) kwargs
  then body
  else raise (TypeError "got an unexpected keyword argument").

Definition _all_active_droplets : M (world S) json :=
  let* response := send "GET" "/droplets?per_page=2" JNull in
  let* has_droplets := pure (contains "droplets" (json_of response)) in
  let* _ :=
    if has_droplets : bool then
      let* has_links := pure (contains "links" (json_of response)) in
      if has_links : bool then
        let* links := pure (getitem (json_of response) "links") in
        print (JList [JStr "LINKS:"; links])
      else ret tt
    else ret tt in
  pure (getitem (json_of response) "droplets").

(** [update_attr(attrs)]: with attributes given they are set; otherwise
    the droplet is fetched and, when it has an address, the method calls
    itself with the fetched document, which is never empty. *)
Definition update_attr (attrs : option dict) : M (Droplet * world S) unit :=
  let fetch :=
    let* id := getattr "id" in
    let* json := lift (_show_droplet id) in
    let* ip := pure (getitem (JDict json) "ip_address") in
    if truthy ip then setattrs json else ret tt in
  match attrs with
  | Some kv => if truthy (JDict kv) then setattrs kv else fetch
  | None => fetch
  end.

Definition power_on : M (Droplet * world S) unit :=
  let* status := getattr "status" in
  let* _ := if py_eq status (AStr "off") then ret tt
            else raise (AssertionError "Can only power on a closed one.") in
  let* id := getattr "id" in
  let* json := lift (_power_on_droplet id) in
  update_attr json.

(** [raise TimeoutError(msg, self.id)] *)
Definition raise_timeout {A} (msg : string) : M (Droplet * world S) A :=
  let* id := getattr "id" in
  raise (TimeoutError msg id).

(** One turn of the wait loop up to its test of [is_powered_on]. *)
Definition poll (end_time : Z) : M (Droplet * world S) bool :=
  let* t := lift time_time in
  let* _ := lift (time_sleep (Z.min 20 (end_time - t))) in
  let* _ := update_attr None in
  is_powered_on.

(** The world after the sleep of one turn. *)
Definition nap (end_time : Z) (w : world S) : world S :=
  World (svc w) (now w + Z.min 20 (end_time - now w)) (sent w)
        (slept w ++ [(now w, Z.min 20 (end_time - now w))]) (stdout w).

(** The body of [if self.is_powered_on():] inside the loop. *)
Definition check_ip : M (Droplet * world S) unit :=
  let* ip := getattr "ip_address" in
  if negb (truthy ip) then raise_timeout "No ip is found." else ret tt.


Lemma update_attr_clock a st r st' :
  update_attr a st = (r, st') -> now (snd st) <= now (snd st').
Proof.
  destruct st as [d w].
  unfold update_attr, setattrs, bind, getattr, lift, _show_droplet, send, http, pure, ret, bind.
  intros H. repeat case_match; simplify_eq/=; lia.
Qed.

Lemma poll_advances end_time st b st' :
  now (snd st) < end_time ->
  poll end_time st = (Ok b, st') ->
  (Z.to_nat (end_time - now (snd st')) < Z.to_nat (end_time - now (snd st)))%nat.
Proof.
  destruct st as [d w]. cbn [snd]. intros Hlt H. unfold poll in H.
  apply bind_Ok in H as (t & s1 & Ht & H). injection Ht as <- <-.
  apply bind_Ok in H as ([] & s2 & Hs & H).
  apply bind_Ok in H as ([] & s3 & Hu & H).
  apply update_attr_clock in Hu.
  unfold is_powered_on in H. apply bind_Ok in H as (v & s4 & Hg & H).
  unfold getattr in Hg. unfold ret in H.
  unfold lift, time_sleep in Hs. cbn [fst snd] in Hs.
  destruct (Z.ltb_spec (Z.min 20 (end_time - now w)) 0) as [?|Hd]; [lia|].
  repeat case_match; simplify_eq/=. lia.
Qed.

(** The loop of [ensure_powered_on]:
    [while time.time() < end_time: ... raise TimeoutError(...)].
    Every turn sleeps at least a second, so the loop ends. *)
Equations? wait_loop (end_time : Z) (st : Droplet * world S) : result unit * (Droplet * world S)
  by wf (Z.to_nat (end_time - now (snd st))) lt :=
wait_loop end_time st with inspect (now (snd st) <? end_time) := {
  | exist _ false _ => raise_timeout "Wait for droplet running timeout" st ;
  | exist _ true Hlt with inspect (poll end_time st) := {
      | exist _ (Ok true, st') _ => check_ip st' ;
      | exist _ (Ok false, st') Hpoll => wait_loop end_time st' ;
      | exist _ (Raise e, st') _ => (Raise e, st') } }.
Proof.
  apply (poll_advances _ _ _ _ (proj1 (Z.ltb_lt _ _) Hlt) Hpoll).
Qed.

Definition ensure_powered_on (wait : bool) (wait_timeout : Z) : M (Droplet * world S) unit :=
  let* on := is_powered_on in
  if on : bool then ret tt
  else
    let* status := getattr "status" in
    let* _ := if py_eq status (AStr "off") then power_on else ret tt in
    if wait then
      let* t := lift time_time in
      wait_loop (t + wait_timeout)
    else ret tt.

(** [Droplet._destroy_droplet(self.id, scrub_data=True)] *)
Definition destroy : M (Droplet * world S) json :=
  let* id := getattr "id" in
  call_kw _destroy_droplet_formals ["scrub_data"] (lift (_destroy_droplet id)).

(** [Droplet.add(...)]: the parsed document under ["droplet"], as it is. *)
Definition add (name size image region : string) (ssh_key_ids virtio private_networking
    backups_enabled user_data : json) : M (world S) json :=
  let data := JDict {[ "name" := JStr name;
    "size" := JStr size;
    "image" := JStr image;
    "region" := JStr region;
    "ssh_key_ids" := ssh_key_ids;
    "virtio" := virtio;
    "private_networking_lower" := JStr (lower (py_str private_networking));
    "backups_enabled_lower" := JStr (lower (py_str backups_enabled));
    "user_data" := user_data ]} in
  let* response := send "POST" "/droplets" data in
  let* _ := pure (contains "droplet" (json_of response)) in
  pure (getitem (json_of response) "droplet").

(** [map(cls, json)] of Python 2: a list. *)
Definition list_all : M (world S) (list Droplet) :=
  let* json := _all_active_droplets in
  let* items := pure (iter json) in
  pure (mapR __init__ items).

(** [for droplet in droplets: if droplet.<attr> == key: return droplet] *)
Fixpoint first_with (attr : string) (key : atom) (droplets : list Droplet) : result (option Droplet) :=
  match droplets with
  | [] => Ok None
  | droplet :: rest =>
      match (attrs droplet !! attr) with
      | None => Raise (AttributeError attr)
      | Some v => if py_eq v key then Ok (Some droplet) else first_with attr key rest
      end
  end.

Definition find (id name : atom) : M (world S) value :=
  if negb (truthy_atom id) && negb (truthy_atom name) then ret VFalse
  else
    let* droplets := list_all in
    let* by_id := pure (first_with "id" id droplets) in
    match by_id with
    | Some droplet => ret (VDroplet droplet)
    | None =>
        let* by_name := pure (first_with "name" name droplets) in
        match by_name with
        | Some droplet => ret (VDroplet droplet)
        | None => ret VFalse
        end
    end.

End Droplet.

(** *** The module's parameters

    [module.params] after [AnsibleModule] has applied types and
    defaults: [state] defaults to ['present'], [virtio] and [wait] to
    true, the other booleans to false, [wait_timeout] to 300. *)
Record params := Params {
  p_state : string;
  p_api_token : option string;
  p_name : option string;
  p_size : option string;
  p_image : option string;
  p_region : option string;
  p_ssh_key_ids : option (list json);
  p_virtio : bool;
  p_private_networking : bool;
  p_backups_enabled : bool;
  p_id : option Z;
  p_unique_name : bool;
  p_user_data : option string;
  p_wait : option bool;
  p_wait_timeout : option Z
}.

(** [choices] of [state] in the argument spec of [main]. *)
Definition state_choices : list string := ["active"; "present"; "absent"; "deleted"; "debug"].

(** [choices] of [state] in [DOCUMENTATION]. *)
Definition documented_state_choices : list string := ["present"; "active"; "absent"; "deleted"].

Section Core.
Context {S : Type} `{!Remote S}.

(** [getkeyordie(k)], given [module.params[k]]. *)
Definition getkeyordie {St A} (k : string) (v : option A) : M St A :=
  match v with
  | Some x => ret x
  | None => fail_json {[ "msg" := JStr (py_percent "Unable to load %s" [k]) ]}
  end.

(** Runs the methods called on the instance [d]. *)
Definition on_instance {A} (d : Droplet) (m : M (Droplet * world S) A) : M (world S) A :=
  fun w => let '(r, st') := m (d, w) in (r, snd st').

(** [self] *)
Definition self : M (Droplet * world S) Droplet := fun st => (Ok (fst st), st).

(** [Droplet.find(id)], then by name under [unique_name]. *)
Definition lookup (api_token : string) (params : params) : M (world S) value :=
  let* droplet := find api_token (atom_of_int (p_id params)) ANone in
  if negb (value_truthy droplet) && p_unique_name params then
    let* name := getkeyordie "name" (p_name params) in
    find api_token ANone (AStr name)
  else ret droplet.

Definition core (params : params) (environ : gmap string string) : M (world S) unit :=
  let* api_token := resolve_api_token (p_api_token params) environ in
  let changed := true in
  let state := p_state params in
  if bool_decide (state ∈ ["active"; "present"]) then
    let* droplet := lookup api_token params in
    let* droplet :=
      if negb (value_truthy droplet) then
        let* name := getkeyordie "name" (p_name params) in
        let* size := getkeyordie "size" (p_size params) in
        let* image := getkeyordie "image" (p_image params) in
        let* region := getkeyordie "region" (p_region params) in
        let* created :=
          add api_token name size image region
            (from_option JList JNull (p_ssh_key_ids params))
            (JBool (p_virtio params))
            (JBool (p_private_networking params))
            (JBool (p_backups_enabled params))
            (from_option JStr JNull (p_user_data params)) in
        ret (VJson created)
      else ret droplet in
    match droplet with
    | VDroplet d =>
        on_instance d (
          let* on := is_powered_on in
          let changed := if on : bool then false else changed in
          let* wait := getkeyordie "wait" (p_wait params) in
          let* wait_timeout := getkeyordie "wait_timeout" (p_wait_timeout params) in
          let* _ := ensure_powered_on api_token wait wait_timeout in
          let* droplet := self in
          exit_json {[ "changed" := JBool changed; "droplet" := JDict (attrs droplet) ]})
    | _ => raise (AttributeError "is_powered_on")
    end
  else if bool_decide (state ∈ ["absent"; "deleted"]) then
    let* droplet := lookup api_token params in
    let* _ :=
      if negb (value_truthy droplet)
      then exit_json {[ "changed" := JBool false; "msg" := JStr "The droplet is not found." ]}
      else ret tt in
    match droplet with
    | VDroplet d =>
        let* event_json := on_instance d destroy in
        exit_json {[ "changed" := JBool true ]}
    | _ => raise (AttributeError "destroy")
    end
  else if is_substring state "debug" then
    let* x := _all_active_droplets api_token in
    exit_json {[ "changed" := JBool true; "response" := x ]}
  else ret tt.

(** What [AnsibleModule(argument_spec, required_together, required_one_of)]
    checks before [core] runs. *)
Definition AnsibleModule {St} (params : params) : M St unit :=
  if negb (bool_decide (p_state params ∈ state_choices)) then
    fail_json {[ "msg" := JStr "value of state must be one of the choices" ]}
  else if negb (bool_decide (
      (is_Some (p_size params) <-> is_Some (p_image params)) /\
      (is_Some (p_image params) <-> is_Some (p_region params)))) then
    fail_json {[ "msg" := JStr "parameters are required together: size, image, region" ]}
  else if negb (bool_decide (is_Some (p_id params) \/ is_Some (p_name params))) then
    fail_json {[ "msg" := JStr "one of the following is required: id, name" ]}
  else ret tt.

Definition main (params : params) (environ : gmap string string) : M (world S) unit :=
  let* _ := AnsibleModule params in
  try_except (core params environ) is_TimeoutError
    (fun e => match e with
              | TimeoutError msg id => fail_json {[ "msg" := JStr msg; "id" := id ]}
              | _ => raise e
              end).

End Core.

End DoDroplet.

(** ** [digital_ocean_tag.py] *)

Module DigitalOceanTag.

Record params := Params {
  p_name : option string;
  p_resource_id : option Z;
  p_resource_type : string;
  p_state : string;
  p_api_token : option string
}.

Definition api_base : string := "https://api.digitalocean.com/v2".

Definition state_choices : list string := ["present"; "absent"].

Definition resource_type_choices : list string := ["droplet"].

(** [response.raise_for_status()] of the requests library: an
    [HTTPError] for the statuses 400 to 599, nothing otherwise. *)
Definition raise_for_status {St} (r : response) : M St unit :=
  if (400 <=? status_code r) && (status_code r <? 600)
  then raise (HTTPError (status_code r))
  else ret tt.

(** [response.json()] of the requests library. *)
Definition response_json (r : response) : result json :=
  match body r with
  | Some j => Ok j
  | None => Raise (ValueError "No JSON object could be decoded")
  end.

(** Reading the local variable [changed], which may be unbound. *)
Definition read_changed {St} (changed : option bool) : M St bool :=
  match changed with
  | Some b => ret b
  | None => raise (UnboundLocalError "changed")
  end.

Definition resources_payload (resource_id : Z) (resource_type : string) : json :=
  JDict {[ "resources" := JList [JDict {[ "resource_id" := JInt resource_id;
                        "resource_type" := JStr resource_type ]}] ]}.

Definition auth_headers (api_token : string) : list (string * string) :=
  [("Authorization", py_format "Bearer {}" [api_token]);
   ("Content-type", "application/json")].

(** The four requests of [core], each as [requests.post] or
    [requests.delete] receives it. *)
Definition create_tag (api_token name : string) : request :=
  Request "POST" (py_format "{}/tags" [api_base]) (auth_headers api_token)
    (Some (JDict {[ "name" := JStr name ]})).

Definition tag_resource (api_token name : string) (resource_id : Z) (resource_type : string) : request :=
  Request "POST" (py_format "{}/tags/{}/resources" [api_base; name]) (auth_headers api_token)
    (Some (resources_payload resource_id resource_type)).

Definition untag_resource (api_token name : string) (resource_id : Z) (resource_type : string) : request :=
  Request "DELETE" (py_format "{}/tags/{}/resources" [api_base; name]) (auth_headers api_token)
    (Some (resources_payload resource_id resource_type)).

Definition delete_tag (api_token name : string) : request :=
  Request "DELETE" (py_format "{}/tags/{}" [api_base; name]) (auth_headers api_token) None.

Section Core.
Context {S : Type} `{!Remote S}.

Definition core (params : params) (environ : gmap string string) : M (world S) unit :=
  let* api_token := resolve_api_token (p_api_token params) environ in
  let state := p_state params in
  let name := p_name params in
  let resource_id := p_resource_id params in
  let resource_type := p_resource_type params in
  if is_substring state "present" then
    match name with
    | None => fail_json {[ "msg" := JStr "parameter `name` is missing" ]}
    | Some name =>
        let* response := http (create_tag api_token name) in
        let* changed :=
          if status_code response =? 201 then ret (Some true)
          else if status_code response =? 422 then ret (Some false)
          else let* _ := raise_for_status response in ret None in
        match resource_id with
        | None =>
            let* changed := read_changed changed in
            let* data := pure (response_json response) in
            exit_json {[ "changed" := JBool changed; "data" := data ]}
        | Some resource_id =>
            let* response := http (tag_resource api_token name resource_id resource_type) in
            let* _ :=
              if status_code response =? 204
              then exit_json {[ "changed" := JBool true ]}
              else ret tt in
            raise_for_status response
        end
    end
  else if is_substring state "absent" then
    match name with
    | None => fail_json {[ "msg" := JStr "parameter `name` is missing" ]}
    | Some name =>
        let* response :=
          match resource_id with
          | Some resource_id =>
              if truthy (JInt resource_id)
              then http (untag_resource api_token name resource_id resource_type)
              else http (delete_tag api_token name)
          | None => http (delete_tag api_token name)
          end in
        let* _ :=
          if status_code response =? 204
          then exit_json {[ "changed" := JBool true ]}
          else ret tt in
        raise_for_status response
    end
  else ret tt.

(** What [AnsibleModule(argument_spec, required_one_of)] checks before
    [core] runs; [state] has a default, so [required_one_of] holds. *)
Definition AnsibleModule {St} (params : params) : M St unit :=
  if negb (bool_decide (p_state params ∈ state_choices)) then
    fail_json {[ "msg" := JStr "value of state must be one of the choices" ]}
  else if negb (bool_decide (p_resource_type params ∈ resource_type_choices)) then
    fail_json {[ "msg" := JStr "value of resource_type must be one of the choices" ]}
  else ret tt.

(** [HAS_REQUESTS] tells whether the requests library could be imported. *)
Definition main (HAS_REQUESTS : bool) (params : params) (environ : gmap string string)
  : M (world S) unit :=
  let* _ := AnsibleModule params in
  let* _ := if negb HAS_REQUESTS
            then fail_json {[ "msg" := JStr "requests required for this module" ]}
            else ret tt in
  try_except (core params environ) is_Exception
    (fun e => fail_json {[ "msg" := JStr (str_exn e) ]}).

End Core.

End DigitalOceanTag.

(** ** Remote services to run the modules against

    The service is not part of the repository.  Two instances of
    [Remote] serve the examples: a scripted service that answers with
    the next response of a list, and a small model of the droplet and
    tag endpoints. *)

Module Service.

(** *** A scripted service *)

Definition exhausted : response := Response 500 None 0.

#[export] Instance scripted : Remote (list response) :=
  fun _ script =>
    match script with
    | r :: rest => (r, rest)
    | [] => (exhausted, [])
    end.

(** *** A droplet that becomes active after some polls *)

Inductive booting := Booting (polls_left : nat).

Definition booting_droplet (polls_left : nat) : json :=
  JDict {[ "id" := JInt 7;
         "name" := JStr "mydroplet";
         "status" := JStr (match polls_left with O => "active" | _ => "new" end);
         "networks" := JDict {[ "v4" := match polls_left with
                        | O => JList [JDict {[ "type" := JStr "public";
                                             "ip_address" := JStr "203.0.113.7" ]}]
                        | _ => JList []
                        end ]} ]}.

#[export] Instance boots : Remote booting :=
  fun _ '(Booting n) =>
    (Response 200 (Some (JDict {[ "droplet" := booting_droplet n ]})) 1, Booting (pred n)).

(** *** The droplet and tag endpoints *)

Record state := State {
  droplets : list dict;
  tags : gmap string (gset Z)
}.

Definition base : string := "https://api.digitalocean.com/v2".

Definition not_found : response :=
  Response 404 (Some (JDict {[ "id" := JStr "not_found";
                             "message" := JStr "The resource you were accessing could not be found." ]})) 0.

(** [s] without its prefix [p]. *)
Fixpoint strip_prefix (p s : string) : option string :=
  match p, s with
  | EmptyString, _ => Some s
  | String a p', String b s' => if Ascii.eqb a b then strip_prefix p' s' else None
  | String _ _, EmptyString => None
  end.

(** [s] without its suffix [q]. *)
Definition strip_suffix (q s : string) : option string :=
  let n := (String.length s - String.length q)%nat in
  if (String.length q <=? String.length s)%nat && String.eqb (substring n (String.length q) s) q
  then Some (substring 0 n s)
  else None.

Definition per_page : nat := 2.

Definition page_url (page : nat) : string :=
  match page with
  | 1%nat => String.append base "/droplets?per_page=2"
  | _ => String.append base (String.append "/droplets?per_page=2&page=" (pretty page))
  end.

(** The droplets of one page, pages counted from 1. *)
Definition page_of (page : nat) (all : list dict) : list dict :=
  take per_page (drop ((page - 1) * per_page) all).

Definition listing (page : nat) (all : list dict) : response :=
  let links :=
    if (page * per_page <? List.length all)%nat
    then JDict {[ "pages" := JDict {[ "next" := JStr (page_url (page + 1)) ]} ]}
    else JDict ∅ in
  Response 200 (Some (JDict {[ "droplets" := JList (map JDict (page_of page all));
                             "links" := links;
                             "meta" := JDict {[ "total" := JInt (Z.of_nat (List.length all)) ]} ]})) 0.

Definition droplet_url (d : dict) : string :=
  String.append base (String.append "/droplets/" (py_str (default JNull (d !! "id")))).

Definition fresh_id (all : list dict) : Z :=
  1 + foldr (fun d m => match (d !! "id") with Some (JInt n) => Z.max n m | _ => m end) 0 all.

Definition new_droplet (id : Z) (payload : json) : dict :=
  {[ "id" := JInt id;
     "name" := match payload with JDict kv => default JNull (kv !! "name") | _ => JNull end;
     "status" := JStr "new";
     "networks" := JDict {[ "v4" := JList [] ]} ]}.

Definition tag_document (name : string) (resources : gset Z) : json :=
  JDict {[ "tag" := JDict {[ "name" := JStr name;
                        "resources" := JDict {[ "droplets" := JDict {[ "count" := JInt (Z.of_nat (size resources)) ]} ]} ]} ]}.

(** The resource ids of a payload [{'resources': [{'resource_id': ..}, ..]}]. *)
Definition payload_ids (payload : option json) : gset Z :=
  match payload with
  | Some (JDict kv) =>
      match (kv !! "resources") with
      | Some (JList l) =>
          foldr (fun r acc => match r with
                              | JDict r => match (r !! "resource_id") with
                                           | Some (JInt n) => {[n]} ∪ acc
                                           | _ => acc
                                           end
                              | _ => acc
                              end) ∅ l
      | _ => ∅
      end
  | _ => ∅
  end.

Definition serve_droplets (req : request) (st : state) : option (response * state) :=
  let all := droplets st in
  if String.eqb (method req) "GET" then
    match List.find (fun page => String.eqb (url req) (page_url page)) (seq 1 (S (List.length all))) with
    | Some page => Some (listing page all, st)
    | None =>
        match List.find (fun d => String.eqb (url req) (droplet_url d)) all with
        | Some d => Some (Response 200 (Some (JDict {[ "droplet" := JDict d ]})) 0, st)
        | None => None
        end
    end
  else if String.eqb (method req) "POST" && String.eqb (url req) (String.append base "/droplets") then
    let d := new_droplet (fresh_id all) (default JNull (data req)) in
    Some (Response 202 (Some (JDict {[ "droplet" := JDict d ]})) 0, State (all ++ [d]) (tags st))
  else None.

Definition serve_tags (req : request) (st : state) : option (response * state) :=
  match strip_prefix (String.append base "/tags") (url req) with
  | Some EmptyString =>
      if String.eqb (method req) "POST" then
        match data req with
        | Some (JDict kv) =>
            match (kv !! "name") with
            | Some (JStr name) =>
                match tags st !! name with
                | Some resources =>
                    Some (Response 422 (Some (JDict {[ "id" := JStr "unprocessable_entity" ]})) 0, st)
                | None =>
                    Some (Response 201 (Some (tag_document name ∅)) 0,
                          State (droplets st) (<[name := ∅]> (tags st)))
                end
            | _ => None
            end
        | _ => None
        end
      else None
  | Some (String "/"%char rest) =>
      match strip_suffix "/resources" rest with
      | Some name =>
          match tags st !! name with
          | Some resources =>
              if String.eqb (method req) "POST" then
                Some (Response 204 None 0,
                      State (droplets st) (<[name := resources ∪ payload_ids (data req)]> (tags st)))
              else if String.eqb (method req) "DELETE" then
                Some (Response 204 None 0,
                      State (droplets st) (<[name := resources ∖ payload_ids (data req)]> (tags st)))
              else None
          | None => None
          end
      | None =>
          match tags st !! rest with
          | Some _ =>
              if String.eqb (method req) "DELETE"
              then Some (Response 204 None 0, State (droplets st) (delete rest (tags st)))
              else None
          | None => None
          end
      end
  | _ => None
  end.

#[export] Instance digital_ocean : Remote state :=
  fun req st =>
    match serve_droplets req st with
    | Some r => r
    | None => match serve_tags req st with
              | Some r => r
              | None => (not_found, st)
              end
    end.

(** *** A listed droplet that becomes active after some polls

    The listing is served at the address of its first page; every other
    request is answered with the droplet as it is after so many polls. *)

Record lab := Lab { listed : list dict; boots_in : nat }.

#[export] Instance serves_lab : Remote lab :=
  fun req st =>
    if String.eqb (url req) (page_url 1)
    then (listing 1 (listed st), st)
    else (Response 200 (Some (JDict {[ "droplet" := booting_droplet (boots_in st) ]})) 1,
          Lab (listed st) (pred (boots_in st))).

(** A fresh world around a service state. *)
Definition boot {S} (s : S) : world S := World s 0 [] [] [].

(** The droplets that carry a tag. *)
Definition tagged (name : string) (w : world state) : option (gset Z) := tags (svc w) !! name.

End Service.

(** * Properties *)

Import Service.

#[global] Arguments resolve_api_token : simpl never.
#[global] Arguments load_api_token : simpl never.
#[global] Arguments http : simpl never.
#[global] Arguments answer : simpl never.
#[global] Arguments after : simpl never.
#[global] Arguments DigitalOceanTag.create_tag : simpl never.
#[global] Arguments DigitalOceanTag.tag_resource : simpl never.
#[global] Arguments DigitalOceanTag.untag_resource : simpl never.
#[global] Arguments DigitalOceanTag.delete_tag : simpl never.
#[global] Arguments DoDroplet.update_attr : simpl never.
#[global] Arguments DoDroplet._show_droplet : simpl never.
#[global] Arguments DoDroplet._all_active_droplets : simpl never.
#[global] Arguments DoDroplet.list_all : simpl never.
#[global] Arguments DoDroplet.find : simpl never.
#[global] Arguments DoDroplet.lookup : simpl never.
#[global] Arguments DoDroplet.add : simpl never.
#[global] Arguments DoDroplet.destroy : simpl never.
#[global] Arguments DoDroplet.poll : simpl never.
#[global] Arguments DoDroplet.ensure_powered_on : simpl never.

(** ** One exchange *)

Section Exchange.
Context {S : Type} `{!Remote S}.

Lemma http_eq req w : http req w = (Ok (answer req w), after req w).
Proof.
  unfold http, after, answer. destruct (serve req (svc w)) as [r s']. reflexivity.
Qed.

End Exchange.

(** ** Credential resolution *)

Lemma load_api_token_param t environ :
  t <> "" -> load_api_token (Some t) environ = Ok t.
Proof.
  intros Ht. unfold load_api_token. simpl.
  destruct (String.eqb_spec t ""); [contradiction | reflexivity].
Qed.

Lemma load_api_token_first t environ :
  t <> "" -> environ !! "DO_API_TOKEN" = Some t -> load_api_token None environ = Ok t.
Proof.
  intros Ht H. unfold load_api_token, environ_get. rewrite H. simpl.
  destruct (String.eqb_spec t ""); [contradiction | reflexivity].
Qed.

(** The second variable is read only when the first is set and empty. *)
Lemma load_api_token_second k environ :
  environ !! "DO_API_TOKEN" = Some "" -> environ !! "DO_API_KEY" = Some k ->
  load_api_token None environ = Ok k.
Proof.
  intros H1 H2. unfold load_api_token, environ_get. rewrite H1. simpl. rewrite H2. reflexivity.
Qed.

Lemma load_api_token_unset environ :
  environ !! "DO_API_TOKEN" = None ->
  load_api_token None environ = Raise (KeyError "DO_API_TOKEN").
Proof.
  intros H. unfold load_api_token, environ_get. rewrite H. reflexivity.
Qed.

Lemma load_api_token_raises param environ e :
  load_api_token param environ = Raise e -> is_KeyError e = true.
Proof.
  unfold load_api_token, environ_get, rbind. intros H.
  repeat case_match; simplify_eq/=; reflexivity.
Qed.

Lemma resolve_Ok {St} param environ tok (s : St) :
  load_api_token param environ = Ok tok ->
  resolve_api_token param environ s = (Ok tok, s).
Proof.
  intros H. unfold resolve_api_token, try_except, pure. rewrite H. reflexivity.
Qed.

(** Without a credential the invocation fails before any request. *)
Lemma resolve_unset {St} environ (s : St) :
  environ !! "DO_API_TOKEN" = None ->
  resolve_api_token None environ s =
    (Raise (SystemExit (FailJson {[ "msg" := JStr "Unable to load DO_API_TOKEN" ]})), s).
Proof.
  intros H. unfold resolve_api_token, try_except, pure.
  rewrite (load_api_token_unset _ H). reflexivity.
Qed.

(** C9, at the failing input: the [api_token] parameter is absent and
    only [DO_API_KEY] is set.  The lookup of [DO_API_TOKEN] raises
    [KeyError] before [DO_API_KEY] is read, and both modules fail with
    [Unable to load DO_API_TOKEN] without sending a request. *)
Theorem second_variable_alone_is_refused :
  let environ : gmap string string := {[ "DO_API_KEY" := "secret" ]} in
  let w := boot (State [] ∅) in
  load_api_token None environ = Raise (KeyError "DO_API_TOKEN") /\
  DigitalOceanTag.main true
    (DigitalOceanTag.Params (Some "web") None "droplet" "present" None) environ w =
    (Raise (SystemExit (FailJson {[ "msg" := JStr "Unable to load DO_API_TOKEN" ]})), w) /\
  DoDroplet.main
    (DoDroplet.Params "present" None (Some "mydroplet") (Some "2gb") (Some "fedora-19-x64")
       (Some "ams2") None true false false None false None (Some true) (Some 300)) environ w =
    (Raise (SystemExit (FailJson {[ "msg" := JStr "Unable to load DO_API_TOKEN" ]})), w).
Proof. vm_compute. repeat split; reflexivity. Qed.

(** Case analysis on everything a computation branches on. *)
Ltac crunch :=
  repeat first
    [ match goal with
      | H : http _ _ = _ |- _ => rewrite http_eq in H; simplify_eq/=
      | H : load_api_token _ _ = Raise _ |- _ =>
          apply load_api_token_raises in H; simplify_eq/=
      end
    | case_match; simplify_eq/= ];
  try congruence; try (simplify_map_eq; congruence).

Ltac exchange := rewrite (bind_eq_Ok _ _ _ _ _ (http_eq _ _)).

(** Unfolds the plumbing of the monad. *)
Ltac plumbing :=
  repeat (progress (unfold bind, ret, raise, pure, exit_json, fail_json, DoDroplet.getkeyordie,
                      DoDroplet.self, DoDroplet.on_instance, DoDroplet.getattr, DoDroplet.lift;
                    cbn [fst snd])).

(** ** The tag module *)

Section Tag.
Context {S : Type} `{!Remote S}.
Import DigitalOceanTag.

Lemma tag_module_ok {St} name rid state param (s : St) :
  state ∈ state_choices ->
  AnsibleModule (Params name rid "droplet" state param) s = (Ok tt, s).
Proof.
  intros H. unfold AnsibleModule. cbn [p_state p_resource_type].
  rewrite (bool_decide_eq_true_2 _ H). reflexivity.
Qed.

Lemma present_choice : "present" ∈ state_choices.
Proof. apply list_elem_of_here. Qed.

Lemma absent_choice : "absent" ∈ state_choices.
Proof. apply list_elem_of_further, list_elem_of_here. Qed.

(** Runs [main] up to the first request of [core]. *)
Ltac enter_tag Htok :=
  unfold main;
  first [ rewrite (bind_eq_Ok _ _ _ _ _ (tag_module_ok _ _ _ _ _ present_choice))
        | rewrite (bind_eq_Ok _ _ _ _ _ (tag_module_ok _ _ _ _ _ absent_choice)) ];
  cbn [negb]; unfold bind at 1; unfold ret at 1;
  unfold try_except, core;
  rewrite (bind_eq_Ok _ _ _ _ _ (resolve_Ok _ _ _ _ Htok));
  cbn [p_state p_name p_resource_id p_resource_type is_substring is_prefix Ascii.eqb Bool.eqb orb].

(** [state=present] without a resource: 201 is a new tag. *)
Lemma tag_present_created param environ tok name j w :
  load_api_token param environ = Ok tok ->
  status_code (answer (create_tag tok name) w) = 201 ->
  body (answer (create_tag tok name) w) = Some j ->
  main true (Params (Some name) None "droplet" "present" param) environ w =
    (Raise (SystemExit (ExitJson {[ "changed" := JBool true; "data" := j ]})),
     after (create_tag tok name) w).
Proof.
  intros Htok Hst Hj. enter_tag Htok. exchange. rewrite Hst. cbn.
  unfold pure, response_json. rewrite Hj. reflexivity.
Qed.

(** [state=present] without a resource: 422 is a tag that exists. *)
Lemma tag_present_existed param environ tok name j w :
  load_api_token param environ = Ok tok ->
  status_code (answer (create_tag tok name) w) = 422 ->
  body (answer (create_tag tok name) w) = Some j ->
  main true (Params (Some name) None "droplet" "present" param) environ w =
    (Raise (SystemExit (ExitJson {[ "changed" := JBool false; "data" := j ]})),
     after (create_tag tok name) w).
Proof.
  intros Htok Hst Hj. enter_tag Htok. exchange. rewrite Hst. cbn.
  unfold pure, response_json. rewrite Hj. reflexivity.
Qed.

(** [state=present] without a resource: any other status fails, through
    [raise_for_status] or through the unbound [changed]. *)
Lemma tag_present_other_status param environ tok name w :
  load_api_token param environ = Ok tok ->
  status_code (answer (create_tag tok name) w) <> 201 ->
  status_code (answer (create_tag tok name) w) <> 422 ->
  failed (fst (main true (Params (Some name) None "droplet" "present" param) environ w)) = true.
Proof.
  intros Htok H1 H2. enter_tag Htok. exchange.
  destruct (Z.eqb_spec (status_code (answer (create_tag tok name) w)) 201); [contradiction|].
  destruct (Z.eqb_spec (status_code (answer (create_tag tok name) w)) 422); [contradiction|].
  unfold bind, raise_for_status.
  destruct ((400 <=? _) && _); reflexivity.
Qed.

(** With a resource the tag is attached after a 422 as after a 201. *)
Lemma tag_present_attaches param environ tok name rid w :
  load_api_token param environ = Ok tok ->
  status_code (answer (create_tag tok name) w) = 201 \/
  status_code (answer (create_tag tok name) w) = 422 ->
  sent (snd (main true (Params (Some name) (Some rid) "droplet" "present" param) environ w)) =
    sent w ++ [create_tag tok name; tag_resource tok name rid "droplet"].
Proof.
  intros Htok Hst. enter_tag Htok. exchange.
  assert (Hsent : forall r : result unit * world S,
    sent (snd r) = sent w ++ [create_tag tok name; tag_resource tok name rid "droplet"] ->
    sent (snd (match r with
               | (Ok a, s') => (Ok a, s')
               | (Raise e, s') =>
                   if is_Exception e then fail_json {[ "msg" := JStr (str_exn e) ]} s'
                   else (Raise e, s')
               end)) = sent w ++ [create_tag tok name; tag_resource tok name rid "droplet"]).
  { intros [[a|e] s'] Hs; [exact Hs|]. destruct (is_Exception e); exact Hs. }
  apply Hsent.
  destruct Hst as [-> | ->]; cbn [Z.eqb Pos.eqb]; unfold bind at 1; unfold ret at 1;
    exchange; unfold bind, raise_for_status, exit_json, raise, ret;
    repeat case_match; simplify_eq/=;
    unfold after; cbn [sent]; rewrite <- app_assoc; reflexivity.
Qed.

(** With a resource, an attach status from 400 to 599 fails. *)
Lemma tag_attach_error_status param environ tok name rid w :
  load_api_token param environ = Ok tok ->
  status_code (answer (create_tag tok name) w) = 201 \/
  status_code (answer (create_tag tok name) w) = 422 ->
  400 <= status_code (answer (tag_resource tok name rid "droplet") (after (create_tag tok name) w)) < 600 ->
  failed (fst (main true (Params (Some name) (Some rid) "droplet" "present" param) environ w)) = true.
Proof.
  intros Htok Hst Herr. enter_tag Htok. exchange.
  destruct Hst as [-> | ->]; cbn [Z.eqb Pos.eqb]; unfold bind at 1; unfold ret at 1;
    exchange; unfold bind, raise_for_status, exit_json, raise, ret;
    repeat match goal with
           | |- context [?a =? 204] => destruct (Z.eqb_spec a 204); [lia|]
           | |- context [400 <=? ?a] => destruct (Z.leb_spec 400 a); [|lia]
           | |- context [?a <? 600] => destruct (Z.ltb_spec a 600); [|lia]
           end;
    reflexivity.
Qed.

(** With a resource the only report of success is [changed=True]. *)
Lemma tag_attach_changed param environ name rid rtype state w b :
  is_substring state "present" = true ->
  changed_of (fst (main true (Params (Some name) (Some rid) rtype state param) environ w)) = Some b ->
  b = true.
Proof.
  intros Hs.
  unfold main, core, AnsibleModule, resolve_api_token, bind, ret, try_except, pure, raise_for_status,
    exit_json, fail_json, raise. cbn [p_state p_name p_resource_id p_resource_type].
  rewrite Hs. crunch.
Qed.

(** [state=absent]: the only report of success is [changed=True]. *)
Lemma tag_absent_changed param environ name rid rtype w b :
  changed_of (fst (main true (Params name rid rtype "absent" param) environ w)) = Some b ->
  b = true.
Proof.
  unfold main, core, AnsibleModule, resolve_api_token, bind, ret, try_except, pure, raise_for_status,
    exit_json, fail_json, raise. cbn [p_state p_name p_resource_id p_resource_type].
  change (is_substring "absent" "present") with false.
  change (is_substring "absent" "absent") with true. cbv iota. crunch.
Qed.

(** The one request of [state=absent]. *)
Definition absent_request (tok name : string) (rid : option Z) : request :=
  match rid with
  | Some r => if truthy (JInt r) then untag_resource tok name r "droplet" else delete_tag tok name
  | None => delete_tag tok name
  end.

Lemma tag_absent_one_request param environ tok name rid w :
  load_api_token param environ = Ok tok ->
  sent (snd (main true (Params (Some name) rid "droplet" "absent" param) environ w)) =
    sent w ++ [absent_request tok name rid].
Proof.
  intros Htok. enter_tag Htok. unfold absent_request.
  destruct rid as [r|]; [destruct (truthy (JInt r))|]; exchange;
    unfold bind, raise_for_status, exit_json, raise, ret;
    repeat case_match; simplify_eq/=; reflexivity.
Qed.

(** [state=absent]: 204 is the success, a status from 400 to 599 fails. *)
Lemma tag_absent_outcome param environ tok name rid w :
  load_api_token param environ = Ok tok ->
  let response := answer (absent_request tok name rid) w in
  let run := main true (Params (Some name) rid "droplet" "absent" param) environ w in
  (status_code response = 204 -> fst run = Raise (SystemExit (ExitJson {[ "changed" := JBool true ]}))) /\
  (400 <= status_code response < 600 -> failed (fst run) = true).
Proof.
  intros Htok. cbv zeta. unfold absent_request.
  split; [intros Hst | intros Herr]; enter_tag Htok;
    (destruct rid as [r|]; [destruct (truthy (JInt r))|]); exchange;
    unfold bind, raise_for_status, exit_json, raise, ret;
    try (rewrite Hst; reflexivity);
    repeat match goal with
           | |- context [?a =? 204] => destruct (Z.eqb_spec a 204); [lia|]
           | |- context [400 <=? ?a] => destruct (Z.leb_spec 400 a); [|lia]
           | |- context [?a <? 600] => destruct (Z.ltb_spec a 600); [|lia]
           end;
    reflexivity.
Qed.

End Tag.

(** C6, at two failing inputs.  A resource id is given.  When the
    create call is answered 200, [raise_for_status] raises nothing, the
    tag is attached and the module reports [changed=True] where the
    claim has a hard failure; when the attach call is answered 200 the
    module ends without any report. *)
Theorem success_status_other_than_expected_is_no_failure :
  let params := DigitalOceanTag.Params (Some "web") (Some 7) "droplet" "present" (Some "XXX") in
  fst (DigitalOceanTag.main true params ∅ (boot [Response 200 None 0; Response 204 None 0])) =
    Raise (SystemExit (ExitJson {[ "changed" := JBool true ]})) /\
  fst (DigitalOceanTag.main true params ∅ (boot [Response 201 None 0; Response 200 None 0])) =
    Ok tt.
Proof. vm_compute. repeat split; reflexivity. Qed.

(** C7, at two failing inputs.  With [resource_id=0] the test
    [if resource_id:] takes the other branch: the tag itself is deleted,
    and droplet 5 loses it too.  And a delete answered 200 ends the
    module without any report. *)
Theorem resource_id_zero_deletes_the_tag :
  let s := State [] {[ "web" := {[ 0; 5 ]} ]} in
  let params := DigitalOceanTag.Params (Some "web") (Some 0) "droplet" "absent" (Some "XXX") in
  let run := DigitalOceanTag.main true params ∅ (boot s) in
  fst run = Raise (SystemExit (ExitJson {[ "changed" := JBool true ]})) /\
  sent (snd run) = [DigitalOceanTag.delete_tag "XXX" "web"] /\
  tagged "web" (snd run) = None /\
  fst (DigitalOceanTag.main true
         (DigitalOceanTag.Params (Some "web") (Some 5) "droplet" "absent" (Some "XXX")) ∅
         (boot [Response 200 None 0])) = Ok tt.
Proof. vm_compute. repeat split; reflexivity. Qed.

(** With another resource id only that association goes. *)
Example untag_one_resource :
  let s := State [] {[ "web" := {[ 0; 5 ]} ]} in
  let params := DigitalOceanTag.Params (Some "web") (Some 5) "droplet" "absent" (Some "XXX") in
  let run := DigitalOceanTag.main true params ∅ (boot s) in
  fst run = Raise (SystemExit (ExitJson {[ "changed" := JBool true ]})) /\
  sent (snd run) = [DigitalOceanTag.untag_resource "XXX" "web" 5 "droplet"] /\
  tagged "web" (snd run) = Some {[ 0 ]}.
Proof. vm_compute. repeat split; reflexivity. Qed.

(** Deleting a tag that does not exist fails. *)
Example delete_missing_tag_fails :
  let params := DigitalOceanTag.Params (Some "staging") None "droplet" "absent" (Some "XXX") in
  failed (fst (DigitalOceanTag.main true params ∅ (boot (State [] ∅)))) = true.
Proof. vm_compute. reflexivity. Qed.

(** ** Droplet lookup *)

Section Lookup.
Context {S : Type} `{!Remote S}.
Import DoDroplet.
Variable api_token : string.

Lemma send_listing :
  send api_token "GET" "/droplets?per_page=2" JNull = http (listing_request api_token).
Proof. reflexivity. Qed.

(** The listing is one request, whatever the response says about
    further pages. *)
Lemma listing_is_one_request w r w' :
  _all_active_droplets api_token w = (r, w') ->
  sent w' = sent w ++ [listing_request api_token] /\
  svc w' = svc (after (listing_request api_token) w) /\
  now w' = now (after (listing_request api_token) w) /\
  slept w' = slept w.
Proof.
  unfold _all_active_droplets. rewrite send_listing. exchange.
  unfold bind, pure, ret, print. intros H.
  repeat case_match; simplify_eq/=; auto.
Qed.

Lemma listing_Ok w kv x :
  body (answer (listing_request api_token) w) = Some (JDict kv) ->
  (kv !! "droplets") = Some x ->
  exists w', _all_active_droplets api_token w = (Ok x, w').
Proof.
  intros Hb Hx. unfold _all_active_droplets. rewrite send_listing. exchange.
  unfold json_of. rewrite Hb. unfold bind, pure, ret, print, contains, getitem.
  rewrite (bool_decide_eq_true_2 _ (mk_is_Some _ _ Hx)). rewrite Hx.
  repeat case_match; simplify_eq/=; eauto.
Qed.

Lemma list_all_is_one_request w r w' :
  list_all api_token w = (r, w') ->
  sent w' = sent w ++ [listing_request api_token].
Proof.
  unfold list_all, bind, pure. intros H.
  destruct (_all_active_droplets api_token w) as [[x|e] w1] eqn:Hl;
    apply listing_is_one_request in Hl as (Hs & _);
    repeat case_match; simplify_eq/=; auto.
Qed.

Lemma first_with_find attr key droplets :
  Forall (fun d => is_Some (attrs d !! attr)) droplets ->
  first_with attr key droplets = Ok (List.find (attr_is attr key) droplets).
Proof.
  induction 1 as [|d ds [v Hv] _ IH]; [reflexivity|].
  cbn [first_with List.find]. unfold attr_is at 1. rewrite Hv.
  destruct (py_eq v key); [reflexivity | exact IH].
Qed.

Lemma find_unique {A} (f : A -> bool) (l : list A) x :
  x ∈ l -> f x = true -> (forall y, y ∈ l -> f y = true -> y = x) ->
  List.find f l = Some x.
Proof.
  induction l as [|a l IH]; intros Hin Hx Huniq.
  - by apply elem_of_nil in Hin.
  - cbn. destruct (f a) eqn:Ha.
    + f_equal. apply Huniq; [left | exact Ha].
    + apply IH; [| exact Hx |].
      * apply elem_of_cons in Hin as [->|Hin]; [congruence | exact Hin].
      * intros y Hy. apply Huniq. by right.
Qed.

Lemma find_none {A} (f : A -> bool) (l : list A) :
  (forall y, y ∈ l -> f y = false) -> List.find f l = None.
Proof.
  induction l as [|a l IH]; intros Hall; [reflexivity|].
  cbn. rewrite (Hall a) by left. apply IH. intros y Hy. apply Hall. by right.
Qed.

(** C8: over the droplets that [list_all] hands to [find], when the
    guard lets the lookup run and every droplet has an id and a name:
    a droplet that alone carries the requested id is the one returned,
    whatever names are shared; and when no droplet carries the id, the
    first droplet in listing order with the requested name is returned,
    or [False] when there is none. *)
Theorem find_prefers_id id name w droplets w1 :
  list_all api_token w = (Ok droplets, w1) ->
  truthy_atom id || truthy_atom name = true ->
  Forall (fun d => is_Some (attrs d !! "id")) droplets ->
  Forall (fun d => is_Some (attrs d !! "name")) droplets ->
  (forall d, d ∈ droplets -> attr_is "id" id d = true ->
     (forall d', d' ∈ droplets -> attr_is "id" id d' = true -> d' = d) ->
     find api_token id name w = (Ok (VDroplet d), w1)) /\
  ((forall d, d ∈ droplets -> attr_is "id" id d = false) ->
     find api_token id name w =
       (Ok (match List.find (attr_is "name" name) droplets with
            | Some d => VDroplet d
            | None => VFalse
            end), w1)).
Proof.
  intros Hl Hguard Hids Hnames.
  assert (Hfind : find api_token id name w =
    (let* by_id := pure (first_with "id" id droplets) in
     match by_id with
     | Some droplet => ret (VDroplet droplet)
     | None =>
         let* by_name := pure (first_with "name" name droplets) in
         match by_name with
         | Some droplet => ret (VDroplet droplet)
         | None => ret VFalse
         end
     end) w1).
  { unfold find. destruct (truthy_atom id), (truthy_atom name); try discriminate;
      cbn [negb andb]; rewrite (bind_eq_Ok _ _ _ _ _ Hl); reflexivity. }
  rewrite Hfind. unfold bind, pure, ret.
  rewrite (first_with_find _ _ _ Hids), (first_with_find _ _ _ Hnames).
  split.
  - intros d Hin Hd Huniq. rewrite (find_unique _ _ _ Hin Hd Huniq). reflexivity.
  - intros Hnone. rewrite (find_none _ _ Hnone).
    destruct (List.find _ droplets); reflexivity.
Qed.

End Lookup.

(** A droplet document as the listing serves it. *)
Definition droplet_doc (id : Z) (name status : string) : dict :=
  {[ "id" := JInt id; "name" := JStr name; "status" := JStr status;
     "networks" := JDict {[ "v4" := JList [] ]} ]}.

(** The instance [Droplet(doc)]. *)
Definition instance_of (doc : dict) : DoDroplet.Droplet :=
  DoDroplet.Obj (doc ∪ {[ "status" := JStr "new" ]}).

(** Two droplets share the name [web]; the second has the id asked for. *)
Lemma find_prefers_id_witness :
  let twins := State [droplet_doc 1 "web" "active"; droplet_doc 2 "web" "active"] ∅ in
  DoDroplet.find "XXX" (AInt 2) (AStr "web") (boot twins) =
    (Ok (DoDroplet.VDroplet (instance_of (droplet_doc 2 "web" "active"))),
     snd (DoDroplet.list_all "XXX" (boot twins))).
Proof.
  cbv zeta.
  refine (proj1 (find_prefers_id "XXX" (AInt 2) (AStr "web") _
                   [instance_of (droplet_doc 1 "web" "active");
                    instance_of (droplet_doc 2 "web" "active")] _ _ _ _ _)
                (instance_of (droplet_doc 2 "web" "active")) _ _ _).
  - vm_compute. reflexivity.
  - reflexivity.
  - repeat constructor; vm_compute; eauto.
  - repeat constructor; vm_compute; eauto.
  - apply list_elem_of_further, list_elem_of_here.
  - reflexivity.
  - intros d' Hin Hid.
    apply elem_of_cons in Hin as [-> | Hin]; [discriminate Hid|].
    apply elem_of_cons in Hin as [-> | Hin]; [reflexivity|].
    by apply elem_of_nil in Hin.
Defined.

(** C2, at the failing input: three droplets exist and the third is on
    the second page of the listing.  [list_all] sends one request, for
    the first page of two, and [find] answers [False] for the id of the
    third droplet. *)
Theorem droplet_on_second_page_is_not_found :
  let three := State [droplet_doc 1 "a" "active"; droplet_doc 2 "b" "active";
                      droplet_doc 3 "c" "active"] ∅ in
  page_of 2 (droplets three) = [droplet_doc 3 "c" "active"] /\
  fst (DoDroplet.list_all "XXX" (boot three)) =
    Ok [instance_of (droplet_doc 1 "a" "active"); instance_of (droplet_doc 2 "b" "active")] /\
  fst (DoDroplet.find "XXX" (AInt 3) ANone (boot three)) = Ok DoDroplet.VFalse /\
  sent (snd (DoDroplet.find "XXX" (AInt 3) ANone (boot three))) =
    [DoDroplet.listing_request "XXX"].
Proof. vm_compute. repeat split; reflexivity. Qed.

(** ** The wait loop *)

Section Populate.
Import DoDroplet.

Lemma populate_networks_keeps networks : forall droplet d,
  populate_networks networks droplet = Ok d ->
  is_Some (droplet !! "ip_address") -> is_Some (d !! "ip_address").
Proof.
  induction networks as [|n l IH]; intros droplet d Hp Hd.
  - cbn in Hp. by simplify_eq.
  - cbn [populate_networks] in Hp. unfold rbind in Hp.
    repeat (case_match; try discriminate); simplify_eq;
      (eapply IH; [eassumption |]);
      repeat (apply lookup_insert_is_Some'; right); exact Hd.
Qed.

Lemma populate_has_address doc d :
  _populate_droplet_ips doc = Ok d -> is_Some (d !! "ip_address").
Proof.
  unfold _populate_droplet_ips, rbind. intros H.
  repeat (case_match; try discriminate).
  eapply populate_networks_keeps; [eassumption |].
  apply lookup_insert_is_Some'. left. reflexivity.
Qed.

End Populate.

Section Wait.
Context {S : Type} `{!Remote S}.
Import DoDroplet.
Variable api_token : string.

Lemma send_show id :
  send api_token "GET" (py_format "/droplets/%s" [py_str id]) JNull = http (show_request api_token).
Proof. reflexivity. Qed.

(** A fetch is one request for the literal path, the clock moves by the
    time of the exchange and nobody sleeps. *)
Lemma show_effects id w r w' :
  _show_droplet api_token id w = (r, w') ->
  w' = after (show_request api_token) w /\
  match r with Ok d => is_Some (d !! "ip_address") | Raise _ => True end.
Proof.
  unfold _show_droplet. rewrite send_show. exchange. unfold bind, pure. intros H.
  repeat case_match; simplify_eq/=; split; auto.
  eapply populate_has_address; eassumption.
Qed.

(** Every fetch of the droplet is answered with a document that
    [_show_droplet] can read. *)
Hypothesis fetched : forall id w, exists d w', _show_droplet api_token id w = (Ok d, w').

(** [d.update(e)] then [d[k]]: the entry of [e] wins. *)
Lemma lookup_update (e kv : dict) k v :
  e !! k = Some v -> (e ∪ kv) !! k = Some v.
Proof. apply lookup_union_Some_l. Qed.

Lemma lookup_update_is_Some (e kv : dict) k :
  is_Some (kv !! k) -> is_Some ((e ∪ kv) !! k).
Proof. intros H. apply lookup_union_is_Some. by right. Qed.

(** A fetch without attributes either leaves the instance as it is or
    merges a document that carries an address. *)
Lemma update_attr_fetch d w :
  waitable d ->
  exists d',
    update_attr api_token None (d, w) = (Ok tt, (d', after (show_request api_token) w)) /\
    waitable d' /\
    (d' = d \/ has_address d' = true).
Proof.
  intros (Hid & Hst & Hip). destruct Hid as [i Hi].
  destruct (fetched i w) as (doc & w1 & Hshow).
  pose proof (show_effects _ _ _ _ Hshow) as (-> & [ip Hipd]).
  unfold update_attr.
  assert (Hg : getattr "id" (d, w) = (Ok i, (d, w))) by (unfold getattr; cbn; by rewrite Hi).
  rewrite (bind_eq_Ok _ _ _ _ _ Hg).
  assert (Hl : lift (_show_droplet api_token i) (d, w) =
               (Ok doc, (d, after (show_request api_token) w)))
    by (unfold lift; cbn; by rewrite Hshow).
  rewrite (bind_eq_Ok _ _ _ _ _ Hl).
  unfold bind, pure, getitem. rewrite Hipd.
  destruct (truthy ip) eqn:Htr.
  - exists (Obj (doc ∪ attrs d)). unfold setattrs. cbn. split; [reflexivity|].
    assert (Ha : has_address (Obj (doc ∪ attrs d)) = true).
    { unfold has_address. cbn. rewrite (lookup_update _ _ _ _ Hipd). exact Htr. }
    split; [|by right].
    unfold waitable. cbn. repeat split.
    + apply lookup_update_is_Some. eauto.
    + apply lookup_update_is_Some. exact Hst.
    + right. rewrite (lookup_update _ _ _ _ Hipd). eauto.
  - exists d. split; [reflexivity|]. split; [|by left].
    unfold waitable. eauto.
Qed.

Lemma is_powered_on_active d (w : world S) :
  is_Some (attrs d !! "status") ->
  is_powered_on (d, w) = (Ok (active d), (d, w)).
Proof.
  intros [s Hs]. unfold is_powered_on, bind, getattr, ret, active, attr_is. cbn.
  rewrite Hs. reflexivity.
Qed.

Lemma poll_turn end_time d w :
  waitable d -> now w < end_time ->
  exists d',
    poll api_token end_time (d, w) =
      (Ok (active d'), (d', after (show_request api_token) (nap end_time w))) /\
    waitable d' /\ (d' = d \/ has_address d' = true).
Proof.
  intros Hw Hlt.
  destruct (update_attr_fetch d (nap end_time w) Hw) as (d' & Hu & Hw' & Hd').
  exists d'. split; [|by split].
  unfold poll.
  assert (Ht : lift time_time (d, w) = (Ok (now w), (d, w))) by reflexivity.
  rewrite (bind_eq_Ok _ _ _ _ _ Ht).
  assert (Hs : lift (time_sleep (Z.min 20 (end_time - now w))) (d, w) = (Ok tt, (d, nap end_time w))).
  { unfold lift, time_sleep. cbn.
    destruct (Z.ltb_spec (Z.min 20 (end_time - now w)) 0); [lia | reflexivity]. }
  rewrite (bind_eq_Ok _ _ _ _ _ Hs), (bind_eq_Ok _ _ _ _ _ Hu).
  apply is_powered_on_active. apply Hw'.
Qed.



(** A droplet that enters the loop before it is active never meets the
    raise of ['No ip is found.']: its attributes change only when a
    fetched document carries an address. *)
Lemma no_address_is_never_met end_time st :
  waitable (fst st) ->
  active (fst st) = false \/ has_address (fst st) = true ->
  forall id st',
    wait_loop api_token end_time st <> (Raise (TimeoutError "No ip is found." id), st').
Proof.
  funelim (wait_loop api_token end_time st); intros Hw Hstart id st'' Hrun.
  - destruct st as [d w]. cbn [fst snd] in *. destruct Hw as ([i Hi] & _).
    unfold raise_timeout, bind, getattr, raise in Hrun. cbn [fst snd] in Hrun.
    rewrite Hi in Hrun. discriminate Hrun.
  - destruct st as [d w]. cbn [fst snd] in *.
    pose proof (proj1 (Z.ltb_lt _ _) Hlt) as Hlt'.
    destruct (poll_turn end_time d w Hw Hlt') as (d' & Hp & Hw' & Hd').
    assert (Hst' : (Ok (active d'), (d', after (show_request api_token) (nap end_time w))) =
                   (Ok true, st')) by congruence.
    injection Hst' as Hact <-.
    assert (Haddr : has_address d' = true).
    { destruct Hd' as [-> | Ha]; [|exact Ha]. destruct Hstart; congruence. }
    unfold has_address in Haddr.
    unfold check_ip, raise_timeout, bind, getattr, raise, ret in Hrun. cbn [fst snd] in Hrun.
    destruct (attrs d' !! "ip_address") as [ip|]; [|discriminate].
    rewrite Haddr in Hrun. discriminate Hrun.
  - destruct st as [d w]. cbn [fst snd] in *.
    pose proof (proj1 (Z.ltb_lt _ _) Hlt) as Hlt'.
    destruct (poll_turn end_time d w Hw Hlt') as (d' & Hp & Hw' & Hd').
    assert (Hst' : (Ok (active d'), (d', after (show_request api_token) (nap end_time w))) =
                   (Ok false, st')) by congruence.
    injection Hst' as Hact <-.
    eapply H; [exact Hw' | left; exact Hact | exact Hrun].
  - destruct st as [d w]. cbn [fst snd] in *.
    pose proof (proj1 (Z.ltb_lt _ _) Hlt) as Hlt'.
    destruct (poll_turn end_time d w Hw Hlt') as (d' & Hp & _). congruence.
Qed.


End Wait.


(** A droplet just created, as the loop finds it. *)
Definition fresh_droplet : DoDroplet.Droplet :=
  DoDroplet.Obj {[ "id" := JInt 7; "status" := JStr "new" ]}.


(** The droplet never becomes active within a minute: three sleeps, of
    which the last is cut to the budget left, then the timeout with the
    id of the droplet. *)
Example never_active_times_out :
  let run := DoDroplet.wait_loop "XXX" 60 (fresh_droplet, boot (Booting 100)) in
  fst run = Raise (TimeoutError "Wait for droplet running timeout" (JInt 7)) /\
  slept (snd (snd run)) = [(0, 20); (21, 20); (42, 18)] /\
  now (snd (snd run)) = 61.
Proof. vm_compute. repeat split; reflexivity. Qed.

(** An instance that is active with an empty address when the loop
    starts, and a service that never assigns one. *)
Example active_without_address_times_out :
  let d := DoDroplet.Obj {[ "id" := JInt 7; "status" := JStr "active"; "ip_address" := JStr "" ]} in
  fst (DoDroplet.wait_loop "XXX" 60 (d, boot (Booting 100))) =
    Raise (TimeoutError "No ip is found." (JInt 7)).
Proof. vm_compute. reflexivity. Qed.

(** The droplet is active with an address at the third fetch. *)
Example active_at_third_fetch :
  let run := DoDroplet.ensure_powered_on "XXX" true 300 (fresh_droplet, boot (Booting 2)) in
  fst run = Ok tt /\
  DoDroplet.active (fst (snd run)) = true /\
  (DoDroplet.attrs (fst (snd run)) !! "ip_address") = Some (JStr "203.0.113.7") /\
  slept (snd (snd run)) = [(0, 20); (21, 20); (42, 20)].
Proof. vm_compute. repeat split; reflexivity. Qed.

(** ** What the methods of a droplet can raise *)

Section Raises.
Context {S : Type} `{!Remote S}.
Import DoDroplet.
Variable api_token : string.

Lemma populate_networks_raises networks : forall droplet e,
  populate_networks networks droplet = Raise e -> is_Exception e = true.
Proof.
  induction networks as [|n l IH]; intros droplet e Hp; [discriminate|].
  cbn [populate_networks] in Hp. unfold rbind, getitem in Hp.
  repeat (case_match; simplify_eq/=); try reflexivity; eapply IH; eassumption.
Qed.

Lemma populate_raises doc e :
  _populate_droplet_ips doc = Raise e -> is_Exception e = true.
Proof.
  unfold _populate_droplet_ips, rbind, getitem, index_items. intros H.
  repeat first
    [ match goal with
      | H : populate_networks _ _ = Raise _ |- _ => apply populate_networks_raises in H
      end
    | case_match; simplify_eq/= ]; auto.
Qed.

Lemma show_raises id w e w' :
  _show_droplet api_token id w = (Raise e, w') -> is_Exception e = true.
Proof.
  unfold _show_droplet, send. rewrite (bind_eq_Ok _ _ _ _ _ (http_eq _ _)).
  unfold bind, pure, getitem. intros H.
  repeat first
    [ match goal with
      | H : _populate_droplet_ips _ = Raise _ |- _ => apply populate_raises in H
      end
    | case_match; simplify_eq/= ]; auto.
Qed.

Lemma update_attr_raises a st e st' :
  update_attr api_token a st = (Raise e, st') -> is_Exception e = true.
Proof.
  destruct st as [d w].
  unfold update_attr, setattrs, bind, getattr, lift, pure, ret, getitem. cbn [fst snd].
  intros H.
  repeat first
    [ match goal with
      | H : _show_droplet _ _ _ = (Raise _, _) |- _ => apply show_raises in H
      end
    | case_match; simplify_eq/= ]; auto.
Qed.

Lemma poll_raises end_time st e st' :
  poll api_token end_time st = (Raise e, st') -> is_Exception e = true.
Proof.
  destruct st as [d w]. unfold poll, is_powered_on, bind, lift, time_time, time_sleep, getattr, ret.
  cbn [fst snd]. intros H.
  repeat first
    [ match goal with
      | H : update_attr _ _ _ = (Raise _, _) |- _ => apply update_attr_raises in H
      end
    | case_match; simplify_eq/= ]; auto.
Qed.

Lemma wait_loop_raises end_time st :
  forall e st', wait_loop api_token end_time st = (Raise e, st') -> is_Exception e = true.
Proof.
  funelim (wait_loop api_token end_time st); intros e' st'' Hr.
  - unfold raise_timeout, bind, getattr, raise in Hr. repeat (case_match; simplify_eq/=); auto.
  - unfold check_ip, raise_timeout, bind, getattr, raise, ret in Hr.
    repeat (case_match; simplify_eq/=); auto.
  - eauto.
  - injection Hr as <- <-. eapply poll_raises; eassumption.
Qed.

Lemma ensure_powered_on_raises wait wait_timeout st e st' :
  ensure_powered_on api_token wait wait_timeout st = (Raise e, st') -> is_Exception e = true.
Proof.
  destruct st as [d w].
  unfold ensure_powered_on, power_on, _power_on_droplet, is_powered_on, bind, getattr, lift,
    time_time, ret, raise. cbn [fst snd]. intros H.
  repeat first
    [ match goal with
      | H : update_attr _ _ _ = (Raise _, _) |- _ => apply update_attr_raises in H
      | H : wait_loop _ _ _ = (Raise _, _) |- _ => apply wait_loop_raises in H
      end
    | case_match; simplify_eq/= ]; auto.
Qed.

(** [destroy] passes a keyword that [_destroy_droplet] does not declare. *)
Lemma destroy_raises (st : Droplet * world S) :
  exists e, destroy st = (Raise e, st) /\ is_Exception e = true.
Proof.
  destruct st as [d w]. unfold destroy, bind, getattr, call_kw, raise. cbn.
  destruct (attrs d !! "id"); eexists; split; reflexivity.
Qed.

End Raises.

(** ** The droplet module *)

Section DropletCore.
Context {S : Type} `{!Remote S}.
Import DoDroplet.

Lemma active_has_status d : active d = true -> is_Some (attrs d !! "status").
Proof. unfold active, attr_is. destruct (attrs d !! "status"); [eauto | discriminate]. Qed.

Lemma ensure_powered_on_active tok wait t d (w : world S) :
  active d = true -> ensure_powered_on tok wait t (d, w) = (Ok tt, (d, w)).
Proof.
  intros Hact. unfold ensure_powered_on.
  rewrite (bind_eq_Ok _ _ _ _ _ (is_powered_on_active d w (active_has_status d Hact))).
  rewrite Hact. reflexivity.
Qed.

Lemma present_found_active params environ tok (w : world S) d w1 wait t :
  p_state params ∈ ["active"; "present"] ->
  load_api_token (p_api_token params) environ = Ok tok ->
  lookup tok params w = (Ok (VDroplet d), w1) ->
  active d = true ->
  p_wait params = Some wait -> p_wait_timeout params = Some t ->
  core params environ w =
    (Raise (SystemExit (ExitJson {[ "changed" := JBool false; "droplet" := JDict (attrs d) ]})), w1).
Proof.
  intros Hst Htok Hl Hact Hwait Ht. unfold core.
  rewrite (bind_eq_Ok _ _ _ _ _ (resolve_Ok _ _ _ _ Htok)).
  rewrite (bool_decide_eq_true_2 _ Hst).
  rewrite (bind_eq_Ok _ _ _ _ _ Hl). cbn [value_truthy negb].
  unfold bind at 1. unfold ret at 1. unfold on_instance.
  rewrite (bind_eq_Ok _ _ _ _ _ (is_powered_on_active d w1 (active_has_status d Hact))).
  rewrite Hact, Hwait, Ht.
  unfold getkeyordie. unfold bind at 1. unfold ret at 1. unfold bind at 1. unfold ret at 1.
  rewrite (bind_eq_Ok _ _ _ _ _ (ensure_powered_on_active tok wait t d w1 Hact)).
  reflexivity.
Qed.

Lemma present_found_changed params environ tok (w : world S) d w1 kw w' :
  p_state params ∈ ["active"; "present"] ->
  load_api_token (p_api_token params) environ = Ok tok ->
  lookup tok params w = (Ok (VDroplet d), w1) ->
  core params environ w = (Raise (SystemExit (ExitJson kw)), w') ->
  (kw !! "changed") = Some (JBool (negb (active d))).
Proof.
  intros Hst Htok Hl. unfold core.
  rewrite (bind_eq_Ok _ _ _ _ _ (resolve_Ok _ _ _ _ Htok)).
  rewrite (bool_decide_eq_true_2 _ Hst).
  rewrite (bind_eq_Ok _ _ _ _ _ Hl). cbn [value_truthy negb].
  unfold active, attr_is, is_powered_on. plumbing. intros H.
  repeat first
    [ match goal with
      | H : ensure_powered_on _ _ _ _ = (Raise _, _) |- _ => apply ensure_powered_on_raises in H
      end
    | case_match; simplify_eq/= ]; auto.
Qed.

Lemma absent_is_not_present state :
  state ∈ ["absent"; "deleted"] -> bool_decide (state ∈ ["active"; "present"]) = false.
Proof.
  intros H. apply bool_decide_eq_false_2. intros H'.
  repeat (apply elem_of_cons in H as [->|H]);
    repeat (apply elem_of_cons in H' as [?|H']); try discriminate;
    try (by apply elem_of_nil in H); by apply elem_of_nil in H'.
Qed.

Lemma absent_not_found params environ tok (w : world S) w1 :
  p_state params ∈ ["absent"; "deleted"] ->
  load_api_token (p_api_token params) environ = Ok tok ->
  lookup tok params w = (Ok VFalse, w1) ->
  core params environ w =
    (Raise (SystemExit (ExitJson {[ "changed" := JBool false;
                                  "msg" := JStr "The droplet is not found." ]})), w1).
Proof.
  intros Hst Htok Hl. unfold core.
  rewrite (bind_eq_Ok _ _ _ _ _ (resolve_Ok _ _ _ _ Htok)).
  rewrite (absent_is_not_present _ Hst), (bool_decide_eq_true_2 _ Hst).
  rewrite (bind_eq_Ok _ _ _ _ _ Hl). reflexivity.
Qed.

(** A droplet that is found is never destroyed: the call of [destroy]
    raises before any request. *)
Lemma absent_found params environ tok (w : world S) d w1 :
  p_state params ∈ ["absent"; "deleted"] ->
  load_api_token (p_api_token params) environ = Ok tok ->
  lookup tok params w = (Ok (VDroplet d), w1) ->
  exists e, core params environ w = (Raise e, w1) /\ is_Exception e = true.
Proof.
  intros Hst Htok Hl. unfold core.
  rewrite (bind_eq_Ok _ _ _ _ _ (resolve_Ok _ _ _ _ Htok)).
  rewrite (absent_is_not_present _ Hst), (bool_decide_eq_true_2 _ Hst).
  rewrite (bind_eq_Ok _ _ _ _ _ Hl). cbn [value_truthy negb].
  unfold bind at 1. unfold ret at 1.
  destruct (destroy_raises (d, w1)) as (e & He & Hexc).
  exists e. split; [|exact Hexc].
  unfold bind, on_instance. rewrite He. reflexivity.
Qed.

Lemma add_raises tok name size image region k v p b u (w : world S) e w' :
  add tok name size image region k v p b u w = (Raise e, w') -> is_Exception e = true.
Proof.
  unfold add, send. rewrite (bind_eq_Ok _ _ _ _ _ (http_eq _ _)).
  unfold bind, pure, contains, getitem. intros H.
  repeat (case_match; simplify_eq/=); auto.
Qed.

(** When no droplet is found the invocation never reports success:
    [Droplet.add] hands back a plain document, which has no method
    [is_powered_on]. *)
Lemma present_not_found params environ tok (w : world S) w1 :
  p_state params ∈ ["active"; "present"] ->
  load_api_token (p_api_token params) environ = Ok tok ->
  lookup tok params w = (Ok VFalse, w1) ->
  changed_of (fst (core params environ w)) = None.
Proof.
  intros Hst Htok Hl. unfold core.
  rewrite (bind_eq_Ok _ _ _ _ _ (resolve_Ok _ _ _ _ Htok)).
  rewrite (bool_decide_eq_true_2 _ Hst).
  rewrite (bind_eq_Ok _ _ _ _ _ Hl). cbn [value_truthy negb].
  plumbing.
  repeat first
    [ match goal with
      | H : add _ _ _ _ _ _ _ _ _ _ _ = (Raise _, _) |- _ => apply add_raises in H
      end
    | case_match; simplify_eq/= ]; auto.
Qed.

(** C10: ['debug'] is a choice of [state] in the argument spec of
    [main] and none of the documented ones.  With [state='debug'], for
    parameters that pass the argument spec, a credential that resolves
    and a listing whose document has the key [droplets], the module
    sends the one listing request and exits with [changed=True] and
    the listed droplets, whatever the service did. *)
Theorem debug_reports_changed params environ tok (w : world S) kv x :
  p_state params = "debug" ->
  AnsibleModule params w = (Ok tt, w) ->
  load_api_token (p_api_token params) environ = Ok tok ->
  body (answer (listing_request tok) w) = Some (JDict kv) ->
  (kv !! "droplets") = Some x ->
  ("debug" ∈ state_choices) /\ ("debug" ∉ documented_state_choices) /\
  exists w',
    main params environ w =
      (Raise (SystemExit (ExitJson {[ "changed" := JBool true; "response" := x ]})), w') /\
    sent w' = sent w ++ [listing_request tok].
Proof.
  intros Hst Hmod Htok Hb Hx.
  split; [repeat first [apply list_elem_of_here | apply list_elem_of_further]|].
  split.
  { intros Hin. repeat (apply elem_of_cons in Hin as [Hin|Hin]; [discriminate Hin|]).
    by apply elem_of_nil in Hin. }
  destruct (listing_Ok tok w kv x Hb Hx) as (w' & Hl).
  exists w'. split; [|by apply (listing_is_one_request tok) in Hl as (? & _)].
  unfold main. rewrite (bind_eq_Ok _ _ _ _ _ Hmod). unfold try_except, core.
  rewrite (bind_eq_Ok _ _ _ _ _ (resolve_Ok _ _ _ _ Htok)).
  rewrite Hst. change (bool_decide ("debug" ∈ ["active"; "present"])) with false.
  change (bool_decide ("debug" ∈ ["absent"; "deleted"])) with false.
  change (is_substring "debug" "debug") with true. cbv iota.
  rewrite (bind_eq_Ok _ _ _ _ _ Hl). reflexivity.
Qed.

End DropletCore.

(** ** What [main] reports *)

Section DropletMain.
Context {S : Type} `{!Remote S}.
Import DoDroplet.

(** [main] hands on every [SystemExit] of [core]. *)
Lemma main_exit params environ (w : world S) r w' :
  AnsibleModule params w = (Ok tt, w) ->
  core params environ w = (Raise (SystemExit r), w') ->
  main params environ w = (Raise (SystemExit r), w').
Proof.
  intros Hmod Hcore. unfold main. rewrite (bind_eq_Ok _ _ _ _ _ Hmod).
  unfold try_except. rewrite Hcore. reflexivity.
Qed.

(** A success that [main] reports is one that [core] reported. *)
Lemma main_exit_inv params environ (w : world S) kw w' :
  AnsibleModule params w = (Ok tt, w) ->
  main params environ w = (Raise (SystemExit (ExitJson kw)), w') ->
  core params environ w = (Raise (SystemExit (ExitJson kw)), w').
Proof.
  intros Hmod. unfold main. rewrite (bind_eq_Ok _ _ _ _ _ Hmod).
  unfold try_except, fail_json, raise.
  destruct (core params environ w) as [[[]|e] w1]; [discriminate|].
  destruct e; cbn; intros H; simplify_eq; reflexivity.
Qed.

Lemma main_changed params environ (w : world S) :
  AnsibleModule params w = (Ok tt, w) ->
  changed_of (fst (main params environ w)) = changed_of (fst (core params environ w)).
Proof.
  intros Hmod. unfold main. rewrite (bind_eq_Ok _ _ _ _ _ Hmod).
  unfold try_except, fail_json, raise.
  destruct (core params environ w) as [[[]|e] w1]; [reflexivity|].
  destruct e; reflexivity.
Qed.

(** A droplet found in a state other than active and off, without
    waiting: nothing is sent, and the report is [changed=True]. *)
Lemma present_found_idle params environ tok (w : world S) d w1 s t :
  p_state params ∈ ["active"; "present"] ->
  load_api_token (p_api_token params) environ = Ok tok ->
  lookup tok params w = (Ok (VDroplet d), w1) ->
  (attrs d !! "status") = Some s ->
  py_eq s (AStr "active") = false -> py_eq s (AStr "off") = false ->
  p_wait params = Some false -> p_wait_timeout params = Some t ->
  core params environ w =
    (Raise (SystemExit (ExitJson {[ "changed" := JBool true; "droplet" := JDict (attrs d) ]})), w1).
Proof.
  intros Hst Htok Hl Hs Hact Hoff Hwait Ht. unfold core.
  rewrite (bind_eq_Ok _ _ _ _ _ (resolve_Ok _ _ _ _ Htok)).
  rewrite (bool_decide_eq_true_2 _ Hst).
  rewrite (bind_eq_Ok _ _ _ _ _ Hl). cbn [value_truthy negb].
  unfold ensure_powered_on, is_powered_on. plumbing.
  rewrite Hs, Hact, Hwait, Ht. cbn [fst snd]. rewrite Hs, Hact. cbn [fst snd].
  rewrite Hs, Hoff. reflexivity.
Qed.

(** Where the lookup finds a droplet, for [state] present or active:
    the flag reported is [False] exactly when that droplet was found
    active.  A droplet found active is reported
    unchanged; a droplet found in a state other than active and off is
    reported changed when no wait is asked for; and whatever success is
    reported, its flag is the negation of "found active". *)
Theorem changed_unless_found_active params environ tok (w : world S) d w1 :
  p_state params ∈ ["active"; "present"] ->
  AnsibleModule params w = (Ok tt, w) ->
  load_api_token (p_api_token params) environ = Ok tok ->
  lookup tok params w = (Ok (VDroplet d), w1) ->
  (active d = true -> is_Some (p_wait params) -> is_Some (p_wait_timeout params) ->
   main params environ w =
     (Raise (SystemExit (ExitJson {[ "changed" := JBool false; "droplet" := JDict (attrs d) ]})), w1)) /\
  (attr_is "status" (AStr "active") d = false -> attr_is "status" (AStr "off") d = false ->
   is_Some (attrs d !! "status") ->
   p_wait params = Some false -> is_Some (p_wait_timeout params) ->
   main params environ w =
     (Raise (SystemExit (ExitJson {[ "changed" := JBool true; "droplet" := JDict (attrs d) ]})), w1)) /\
  (forall kw w',
     main params environ w = (Raise (SystemExit (ExitJson kw)), w') ->
     (kw !! "changed") = Some (JBool (negb (active d)))).
Proof.
  intros Hst Hmod Htok Hl. split; [|split].
  - intros Hact [wait Hwait] [t Ht]. apply main_exit; [exact Hmod|].
    eapply present_found_active; eassumption.
  - intros Hact Hoff [s Hs] Hwait [t Ht]. apply main_exit; [exact Hmod|].
    unfold attr_is in Hact, Hoff. rewrite Hs in Hact, Hoff.
    eapply present_found_idle; eassumption.
  - intros kw w' Hmain. apply main_exit_inv in Hmain; [|exact Hmod].
    eapply present_found_changed; eassumption.
Qed.

End DropletMain.

(** Two droplets, the first active and the second new. *)
Definition two_droplets : state :=
  State [droplet_doc 1 "a" "active"; droplet_doc 2 "b" "new"] ∅.

(** The parameters of a droplet invocation with the sizes of the
    examples of the module. *)
Definition droplet_params (state : string) (id : option Z) (name : option string)
    (unique_name wait : bool) : DoDroplet.params :=
  DoDroplet.Params state (Some "XXX") name (Some "2gb") (Some "fedora-19-x64") (Some "ams2")
    None true false false id unique_name None (Some wait) (Some 300).

Lemma changed_unless_found_active_witness :
  DoDroplet.main (droplet_params "present" (Some 1) None false true) ∅ (boot two_droplets) =
    (Raise (SystemExit (ExitJson {[ "changed" := JBool false;
                                  "droplet" := JDict (DoDroplet.attrs
                                     (instance_of (droplet_doc 1 "a" "active"))) ]})),
     snd (DoDroplet.lookup "XXX" (droplet_params "present" (Some 1) None false true)
            (boot two_droplets))).
Proof.
  refine (proj1 (changed_unless_found_active
                   (droplet_params "present" (Some 1) None false true) ∅ "XXX"
                   (boot two_droplets) (instance_of (droplet_doc 1 "a" "active")) _ _ _ _ _) _ _ _).
  - apply list_elem_of_further, list_elem_of_here.
  - reflexivity.
  - reflexivity.
  - vm_compute. reflexivity.
  - reflexivity.
  - eexists; reflexivity.
  - eexists; reflexivity.
Defined.

(** Droplet 2 exists and is new.  Nothing is created: one listing
    request is sent and the service keeps its two droplets.  The report
    is [changed=True], where the examples of the module promise
    [changed = False] for an id that exists. *)
Lemma found_inactive_reports_changed :
  let run := DoDroplet.main (droplet_params "present" (Some 2) None false false) ∅
               (boot two_droplets) in
  changed_of (fst run) = Some true /\
  sent (snd run) = [DoDroplet.listing_request "XXX"] /\
  droplets (svc (snd run)) = droplets two_droplets.
Proof. vm_compute. repeat split; reflexivity. Qed.

(** C5, at the failing input: [state=absent] for droplet 1, which
    exists.  [destroy] raises [TypeError] on its call of
    [_destroy_droplet]; nothing but the listing is sent, the droplet
    stays, and the module reports nothing. *)
Theorem found_droplet_is_not_destroyed :
  let run := DoDroplet.main (droplet_params "absent" (Some 1) None false true) ∅
               (boot two_droplets) in
  fst run = Raise (TypeError "got an unexpected keyword argument") /\
  changed_of (fst run) = None /\
  sent (snd run) = [DoDroplet.listing_request "XXX"] /\
  droplets (svc (snd run)) = droplets two_droplets.
Proof. vm_compute. repeat split; reflexivity. Qed.

(** A droplet that does not exist: the module reports [changed=False]. *)
Example absent_droplet_is_unchanged :
  let run := DoDroplet.main (droplet_params "absent" (Some 9) None false true) ∅
               (boot two_droplets) in
  fst run = Raise (SystemExit (ExitJson {[ "changed" := JBool false;
                                         "msg" := JStr "The droplet is not found." ]})) /\
  sent (snd run) = [DoDroplet.listing_request "XXX"].
Proof. vm_compute. repeat split; reflexivity. Qed.

(** C4, at the failing input: [state=present] with a name, a size, an
    image and a region, and no droplet at the service.  The droplet is
    created: one request is sent, the POST to [/droplets], and the
    service then holds one droplet.  But [Droplet.add] returned the plain
    document, on which [is_powered_on] raises [AttributeError]: the
    module ends without [exit_json] or [fail_json] and reports no
    [changed] flag, where the claim has [changed=true]. *)
Theorem created_droplet_is_not_reported :
  let run := DoDroplet.main (droplet_params "present" None (Some "mydroplet") false true) ∅
               (boot (State [] ∅)) in
  fst run = Raise (AttributeError "is_powered_on") /\
  changed_of (fst run) = None /\
  failed (fst run) = false /\
  map method (sent (snd run)) = ["POST"] /\
  map url (sent (snd run)) = ["https://api.digitalocean.com/v2/droplets"] /\
  List.length (droplets (svc (snd run))) = 1%nat.
Proof. vm_compute. repeat split; reflexivity. Qed.

Lemma debug_reports_changed_witness :
  exists w',
    DoDroplet.main (droplet_params "debug" (Some 1) None false true) ∅ (boot two_droplets) =
      (Raise (SystemExit (ExitJson {[ "changed" := JBool true;
                                    "response" := JList [JDict (droplet_doc 1 "a" "active");
                                                        JDict (droplet_doc 2 "b" "new")] ]})), w') /\
    sent w' = sent (boot two_droplets) ++ [DoDroplet.listing_request "XXX"].
Proof.
  refine (proj2 (proj2 (debug_reports_changed
                          (droplet_params "debug" (Some 1) None false true) ∅ "XXX"
                          (boot two_droplets) _ _ _ _ _ _ _))).
  - reflexivity.
  - reflexivity.
  - reflexivity.
  - vm_compute. reflexivity.
  - reflexivity.
Defined.

(** ** Repeating an invocation *)

Section Repeat.
Context {S : Type} `{!Remote S}.

(** C1, as amended: where an invocation finds nothing to do, the
    modules report [changed=False] in three cases: the droplet module
    for [state] present or active when the lookup finds an active
    droplet, the droplet module for [state] absent or deleted when the
    lookup finds no droplet, and the tag module for [state=present]
    without a resource id when the create call is answered 422, after
    the [changed=True] of a create call answered 201.  The tag module
    with a resource id, and the tag module for [state=absent], report no
    success other than [changed=True]. *)
Theorem unchanged_where_nothing_to_do :
  (forall params environ tok (w : world S) d w1,
     DoDroplet.p_state params ∈ ["active"; "present"] ->
     DoDroplet.AnsibleModule params w = (Ok tt, w) ->
     load_api_token (DoDroplet.p_api_token params) environ = Ok tok ->
     DoDroplet.lookup tok params w = (Ok (DoDroplet.VDroplet d), w1) ->
     DoDroplet.active d = true ->
     is_Some (DoDroplet.p_wait params) -> is_Some (DoDroplet.p_wait_timeout params) ->
     changed_of (fst (DoDroplet.main params environ w)) = Some false) /\
  (forall params environ tok (w : world S) w1,
     DoDroplet.p_state params ∈ ["absent"; "deleted"] ->
     DoDroplet.AnsibleModule params w = (Ok tt, w) ->
     load_api_token (DoDroplet.p_api_token params) environ = Ok tok ->
     DoDroplet.lookup tok params w = (Ok DoDroplet.VFalse, w1) ->
     changed_of (fst (DoDroplet.main params environ w)) = Some false) /\
  (forall param environ tok name j (w : world S),
     load_api_token param environ = Ok tok ->
     body (answer (DigitalOceanTag.create_tag tok name) w) = Some j ->
     let run := DigitalOceanTag.main true
                  (DigitalOceanTag.Params (Some name) None "droplet" "present" param) environ w in
     (status_code (answer (DigitalOceanTag.create_tag tok name) w) = 201 ->
      changed_of (fst run) = Some true) /\
     (status_code (answer (DigitalOceanTag.create_tag tok name) w) = 422 ->
      changed_of (fst run) = Some false)) /\
  (forall param environ name rid (w : world S),
     changed_of (fst (DigitalOceanTag.main true
       (DigitalOceanTag.Params (Some name) (Some rid) "droplet" "present" param) environ w))
     <> Some false) /\
  (forall param environ name rid (w : world S),
     changed_of (fst (DigitalOceanTag.main true
       (DigitalOceanTag.Params name rid "droplet" "absent" param) environ w))
     <> Some false).
Proof.
  split; [|split; [|split; [|split]]].
  - intros params environ tok w d w1 Hst Hmod Htok Hl Hact [wait Hwait] [t Ht].
    rewrite (main_changed _ _ _ Hmod).
    rewrite (present_found_active _ _ _ _ _ _ _ _ Hst Htok Hl Hact Hwait Ht). reflexivity.
  - intros params environ tok w w1 Hst Hmod Htok Hl.
    rewrite (main_changed _ _ _ Hmod).
    rewrite (absent_not_found _ _ _ _ _ Hst Htok Hl). reflexivity.
  - intros param environ tok name j w Htok Hj. cbv zeta. split; intros Hst.
    + rewrite (tag_present_created _ _ _ _ _ _ Htok Hst Hj). reflexivity.
    + rewrite (tag_present_existed _ _ _ _ _ _ Htok Hst Hj). reflexivity.
  - intros param environ name rid w Hch.
    by apply tag_attach_changed in Hch.
  - intros param environ name rid w Hch.
    by apply tag_absent_changed in Hch.
Qed.

End Repeat.

(** The tag [web] is created by the first invocation and found by the
    second. *)
Lemma unchanged_where_nothing_to_do_witness :
  let params := DigitalOceanTag.Params (Some "web") None "droplet" "present" (Some "XXX") in
  let first := DigitalOceanTag.main true params ∅ (boot (State [] ∅)) in
  let second := DigitalOceanTag.main true params ∅ (snd first) in
  changed_of (fst first) = Some true /\ changed_of (fst second) = Some false.
Proof.
  cbv zeta. split.
  - refine (proj1 (proj1 (proj2 (proj2 unchanged_where_nothing_to_do))
                     (Some "XXX") ∅ "XXX" "web" _ (boot (State [] ∅)) _ _) _);
      vm_compute; reflexivity.
  - refine (proj2 (proj1 (proj2 (proj2 unchanged_where_nothing_to_do))
                     (Some "XXX") ∅ "XXX" "web" _ _ _ _) _);
      vm_compute; reflexivity.
Defined.

(** C1, the counterexample: the same invocation twice in a row against
    the same service.  Tagging droplet 7 with [web] reports
    [changed=True] both times; deleting the tag [web] reports
    [changed=True] the first time and fails the second. *)
Lemma repeated_tagging_reports_changed :
  let tagging := DigitalOceanTag.Params (Some "web") (Some 7) "droplet" "present" (Some "XXX") in
  let first := DigitalOceanTag.main true tagging ∅ (boot (State [] ∅)) in
  let second := DigitalOceanTag.main true tagging ∅ (snd first) in
  let deleting := DigitalOceanTag.Params (Some "web") None "droplet" "absent" (Some "XXX") in
  let third := DigitalOceanTag.main true deleting ∅ (snd second) in
  let fourth := DigitalOceanTag.main true deleting ∅ (snd third) in
  changed_of (fst first) = Some true /\ changed_of (fst second) = Some true /\
  tagged "web" (snd first) = Some {[ 7 ]} /\ tagged "web" (snd second) = Some {[ 7 ]} /\
  changed_of (fst third) = Some true /\
  changed_of (fst fourth) = None /\ failed (fst fourth) = true.
Proof. vm_compute. repeat split; reflexivity. Qed.

(** * Further properties *)

(** ** The tag module, whatever the service answers *)

(** Runs [DigitalOceanTag.main] up to the first request of [core]. *)
Ltac enter_tag_core Htok :=
  unfold DigitalOceanTag.main;
  first [ rewrite (bind_eq_Ok _ _ _ _ _ (tag_module_ok _ _ _ _ _ present_choice))
        | rewrite (bind_eq_Ok _ _ _ _ _ (tag_module_ok _ _ _ _ _ absent_choice)) ];
  cbn [negb]; unfold bind at 1; unfold ret at 1;
  unfold try_except, DigitalOceanTag.core;
  rewrite (bind_eq_Ok _ _ _ _ _ (resolve_Ok _ _ _ _ Htok));
  cbn [DigitalOceanTag.p_state DigitalOceanTag.p_name DigitalOceanTag.p_resource_id
       DigitalOceanTag.p_resource_type is_substring is_prefix Ascii.eqb Bool.eqb orb].

Section TagAlways.
Context {S : Type} `{!Remote S}.
Import DigitalOceanTag.

(** X1: [main] of the tag module never lets a Python exception escape:
    an invocation either returns from [main] or ends the process through
    [exit_json] or [fail_json]. *)
Theorem tag_main_lets_no_exception_escape HAS_REQUESTS params environ (w : world S) :
  match fst (main HAS_REQUESTS params environ w) with
  | Ok _ => True
  | Raise e => is_Exception e = false
  end.
Proof.
  unfold main, AnsibleModule, bind, try_except, fail_json, raise, ret.
  repeat case_match; simplify_eq/=; auto; congruence.
Qed.

End TagAlways.
Section TagRequests.
Context {S : Type} `{!Remote S}.
Import DigitalOceanTag.

(** A request of the tag module: it carries the bearer token and the
    JSON content type, and goes to the tags of the fixed base address. *)
Definition tag_request_of (tok : string) (req : request) : Prop :=
  headers req = [("Authorization", String.append "Bearer " tok);
                 ("Content-type", "application/json")] /\
  is_prefix "https://api.digitalocean.com/v2/tags" (url req) = true.

Lemma append_empty (a : string) : String.append a "" = a.
Proof. induction a as [|c a IH]; [reflexivity|].
  change (String c (String.append a "") = String c a). by rewrite IH. Qed.

Lemma format_one (a : string) : py_format "{}" [a] = a.
Proof. change (py_format "{}" [a]) with (String.append a ""). apply append_empty. Qed.

Lemma auth_headers_bearer tok :
  auth_headers tok = [("Authorization", String.append "Bearer " tok);
                      ("Content-type", "application/json")].
Proof.
  unfold auth_headers. do 2 f_equal.
  change (py_format "Bearer {}" [tok]) with (String.append "Bearer " (py_format "{}" [tok])).
  by rewrite format_one.
Qed.

Lemma create_tag_request tok name : tag_request_of tok (create_tag tok name).
Proof. unfold tag_request_of, create_tag. cbn [headers url]. by rewrite auth_headers_bearer. Qed.

Lemma tag_resource_request tok name rid rtype : tag_request_of tok (tag_resource tok name rid rtype).
Proof. unfold tag_request_of, tag_resource. cbn [headers url]. by rewrite auth_headers_bearer. Qed.

Lemma untag_resource_request tok name rid rtype :
  tag_request_of tok (untag_resource tok name rid rtype).
Proof. unfold tag_request_of, untag_resource. cbn [headers url]. by rewrite auth_headers_bearer. Qed.

Lemma delete_tag_request tok name : tag_request_of tok (delete_tag tok name).
Proof. unfold tag_request_of, delete_tag. cbn [headers url]. by rewrite auth_headers_bearer. Qed.

Definition few_tag_requests (tok : string) (w w' : world S) : Prop :=
  exists reqs,
    sent w' = sent w ++ reqs /\ (List.length reqs <= 2)%nat /\ Forall (tag_request_of tok) reqs.

Lemma few_none tok w : few_tag_requests tok w w.
Proof. exists []. rewrite app_nil_r. repeat split; [cbn; lia | constructor]. Qed.

Lemma few_one tok w req : tag_request_of tok req -> few_tag_requests tok w (after req w).
Proof.
  intros Hreq. exists [req]. repeat split; [cbn; lia|]. constructor; [exact Hreq|]. constructor.
Qed.

Lemma few_two tok w req req' :
  tag_request_of tok req -> tag_request_of tok req' ->
  few_tag_requests tok w (after req' (after req w)).
Proof.
  intros Hreq Hreq'. exists [req; req']. repeat split.
  - unfold after. cbn [sent]. by rewrite <- app_assoc.
  - cbn; lia.
  - constructor; [exact Hreq|]. constructor; [exact Hreq'|]. constructor.
Qed.

Lemma tag_core_requests params environ tok (w : world S) :
  load_api_token (p_api_token params) environ = Ok tok ->
  few_tag_requests tok w (snd (core params environ w)).
Proof.
  intros Htok. destruct params as [name rid rtype state param]. cbn [p_api_token] in Htok.
  unfold core. rewrite (bind_eq_Ok _ _ _ _ _ (resolve_Ok _ _ _ _ Htok)).
  cbn [p_state p_name p_resource_id p_resource_type].
  destruct (is_substring state "present"); [|destruct (is_substring state "absent")].
  - destruct name as [name|]; [|apply few_none].
    exchange.
    unfold read_changed, raise_for_status, exit_json, bind, raise, ret, pure.
    destruct (status_code (answer (create_tag tok name) w) =? 201);
      [| destruct (status_code (answer (create_tag tok name) w) =? 422);
         [| destruct ((400 <=? status_code (answer (create_tag tok name) w)) && _)]];
      try (apply few_one, create_tag_request);
      (destruct rid as [rid|];
       [ rewrite http_eq;
         destruct (status_code (answer (tag_resource tok name rid rtype) _) =? 204);
           [| destruct ((400 <=? _) && _)];
           (apply few_two; [apply create_tag_request | apply tag_resource_request])
       | repeat (case_match; simplify_eq/=); apply few_one, create_tag_request ]).
  - destruct name as [name|]; [|apply few_none].
    assert (Hone : forall req, tag_request_of tok req ->
              few_tag_requests tok w
                ((let* response := http req in
                  let* _ := if status_code response =? 204
                            then exit_json {[ "changed" := JBool true ]}
                            else ret tt in
                  raise_for_status response) w).2).
    { intros req Hreq. exchange. unfold raise_for_status, exit_json, bind, raise, ret.
      destruct (status_code (answer req w) =? 204); [|destruct ((400 <=? _) && _)];
        apply few_one, Hreq. }
    destruct rid as [rid|]; [destruct (truthy (JInt rid))|].
    + apply Hone, untag_resource_request.
    + apply Hone, delete_tag_request.
    + apply Hone, delete_tag_request.
  - apply few_none.
Qed.

(** X2: an invocation of the tag module sends at most two requests, and
    each of them carries the resolved credential as bearer token, the
    JSON content type, and an address under [/v2/tags] of the service. *)
Theorem tag_requests_carry_the_credential HAS_REQUESTS params environ tok (w : world S) :
  load_api_token (p_api_token params) environ = Ok tok ->
  exists reqs,
    sent (snd (main HAS_REQUESTS params environ w)) = sent w ++ reqs /\
    (List.length reqs <= 2)%nat /\
    Forall (tag_request_of tok) reqs.
Proof.
  intros Htok. pose proof (tag_core_requests params environ tok w Htok) as Hcore.
  pose proof (few_none tok w) as Hnone. unfold few_tag_requests in *.
  unfold main, AnsibleModule, bind, try_except, fail_json, raise, ret.
  repeat (case_match; simplify_eq/=); assumption.
Qed.

End TagRequests.

Lemma tag_requests_carry_the_credential_witness :
  let params := DigitalOceanTag.Params (Some "web") (Some 7) "droplet" "present" (Some "XXX") in
  exists reqs,
    sent (snd (DigitalOceanTag.main true params ∅ (boot (State [] ∅)))) =
      sent (boot (State [] ∅)) ++ reqs /\
    (List.length reqs <= 2)%nat /\
    Forall (tag_request_of "XXX") reqs.
Proof.
  cbv zeta.
  apply (tag_requests_carry_the_credential true
           (DigitalOceanTag.Params (Some "web") (Some 7) "droplet" "present" (Some "XXX"))
           ∅ "XXX" (boot (State [] ∅))).
  reflexivity.
Defined.
Section TagOutcomes.
Context {S : Type} `{!Remote S}.
Import DigitalOceanTag.

(** X3: the tag module fails before it sends anything when the requests
    library is missing, when no credential can be loaded, or when [name]
    is not given: the invocation ends in [fail_json] and the service has
    not been contacted. *)
Theorem tag_configuration_error_sends_nothing HAS_REQUESTS params environ (w : world S) :
  HAS_REQUESTS = false \/
  (exists e, load_api_token (p_api_token params) environ = Raise e) \/
  p_name params = None ->
  failed (fst (main HAS_REQUESTS params environ w)) = true /\
  snd (main HAS_REQUESTS params environ w) = w.
Proof.
  destruct params as [name rid rtype state param]. cbn [p_api_token p_name].
  unfold main, AnsibleModule. cbn [p_state p_resource_type].
  destruct (bool_decide (state ∈ state_choices)) eqn:Hstate; [|by split].
  destruct (bool_decide (rtype ∈ resource_type_choices)); [|by split].
  cbn [negb]. unfold bind at 1. unfold ret at 1.
  intros [-> | [[e He] | ->]]; [by split | |].
  - destruct HAS_REQUESTS; [|by split].
    cbn [negb]. unfold bind at 1. unfold ret at 1.
    unfold try_except, core, bind, resolve_api_token, try_except, pure.
    cbn [p_api_token]. rewrite He. rewrite (load_api_token_raises _ _ _ He). by split.
  - destruct HAS_REQUESTS; [|by split].
    cbn [negb]. unfold bind at 1. unfold ret at 1.
    unfold try_except, core, bind, resolve_api_token, try_except, pure.
    cbn [p_api_token p_state p_name].
    apply bool_decide_eq_true_1 in Hstate.
    destruct (load_api_token param environ) as [tok|e] eqn:Hl.
    + repeat (apply elem_of_cons in Hstate as [->|Hstate]); [by split | by split |].
      by apply elem_of_nil in Hstate.
    + rewrite (load_api_token_raises _ _ _ Hl). by split.
Qed.

End TagOutcomes.

Lemma tag_configuration_error_sends_nothing_witness :
  let params := DigitalOceanTag.Params None (Some 7) "droplet" "absent" (Some "XXX") in
  failed (fst (DigitalOceanTag.main true params ∅ (boot (State [] ∅)))) = true /\
  snd (DigitalOceanTag.main true params ∅ (boot (State [] ∅))) = boot (State [] ∅).
Proof.
  cbv zeta.
  apply (tag_configuration_error_sends_nothing true
           (DigitalOceanTag.Params None (Some 7) "droplet" "absent" (Some "XXX")) ∅
           (boot (State [] ∅))).
  right. right. reflexivity.
Defined.
Section TagPresent.
Context {S : Type} `{!Remote S}.
Import DigitalOceanTag.

(** X4: [state=present] without a resource id.  The module sends the
    one create request and always ends with a report: [changed=True]
    with the document of the response when the status is 201,
    [changed=False] with the document when it is 422, and [fail_json]
    in every other case, a response without a JSON document included. *)
Theorem tag_present_always_reports param environ tok name (w : world S) :
  load_api_token param environ = Ok tok ->
  let response := answer (create_tag tok name) w in
  let run := main true (Params (Some name) None "droplet" "present" param) environ w in
  snd run = after (create_tag tok name) w /\
  match body response with
  | Some j =>
      if status_code response =? 201
      then fst run = Raise (SystemExit (ExitJson {[ "changed" := JBool true; "data" := j ]}))
      else if status_code response =? 422
      then fst run = Raise (SystemExit (ExitJson {[ "changed" := JBool false; "data" := j ]}))
      else failed (fst run) = true
  | None => failed (fst run) = true
  end.
Proof.
  intros Htok. cbv zeta.
  remember (main true (Params (Some name) None "droplet" "present" param) environ w) as run eqn:Hrun.
  symmetry in Hrun. revert Hrun. enter_tag_core Htok. exchange.
  unfold read_changed, raise_for_status, response_json, exit_json, fail_json, bind, raise, ret, pure.
  destruct (body (answer (create_tag tok name) w)) as [j|];
    (destruct (status_code (answer (create_tag tok name) w) =? 201);
     [| destruct (status_code (answer (create_tag tok name) w) =? 422);
        [| destruct ((400 <=? status_code (answer (create_tag tok name) w)) && _)]]);
    intros <-; split; reflexivity.
Qed.

(** X5: [state=present] with a resource id.  When the create call is
    answered with an error status other than 422, the module fails with
    that status and never attempts to attach the tag. *)
Theorem failed_create_skips_the_attach param environ tok name rid (w : world S) :
  load_api_token param environ = Ok tok ->
  400 <= status_code (answer (create_tag tok name) w) < 600 ->
  status_code (answer (create_tag tok name) w) <> 422 ->
  main true (Params (Some name) (Some rid) "droplet" "present" param) environ w =
    (Raise (SystemExit (FailJson
       {[ "msg" := JStr (str_exn (HTTPError (status_code (answer (create_tag tok name) w)))) ]})),
     after (create_tag tok name) w).
Proof.
  intros Htok Herr H422. enter_tag_core Htok. exchange.
  unfold raise_for_status, bind, raise, ret.
  destruct (Z.eqb_spec (status_code (answer (create_tag tok name) w)) 201); [lia|].
  destruct (Z.eqb_spec (status_code (answer (create_tag tok name) w)) 422); [lia|].
  destruct (Z.leb_spec 400 (status_code (answer (create_tag tok name) w))); [|lia].
  destruct (Z.ltb_spec (status_code (answer (create_tag tok name) w)) 600); [|lia].
  reflexivity.
Qed.

(** X6: [state=absent] with a name.  The module sends exactly one
    request, a DELETE: for the association when the resource id is given
    and not zero, for the tag itself otherwise.  A 204 is reported as
    [changed=True] and an error status as a failure that names it. *)
Theorem absent_sends_one_delete param environ tok name rid (w : world S) :
  load_api_token param environ = Ok tok ->
  let req := absent_request tok name rid in
  let run := main true (Params (Some name) rid "droplet" "absent" param) environ w in
  method req = "DELETE" /\
  snd run = after req w /\
  (status_code (answer req w) = 204 ->
   fst run = Raise (SystemExit (ExitJson {[ "changed" := JBool true ]}))) /\
  (400 <= status_code (answer req w) < 600 ->
   fst run = Raise (SystemExit (FailJson
     {[ "msg" := JStr (str_exn (HTTPError (status_code (answer req w)))) ]}))).
Proof.
  intros Htok. cbv zeta.
  split; [unfold absent_request; by repeat case_match|].
  remember (main true (Params (Some name) rid "droplet" "absent" param) environ w) as run eqn:Hrun.
  symmetry in Hrun. revert Hrun. enter_tag_core Htok.
  assert (Hsame : (match rid with
                   | Some resource_id =>
                       if truthy (JInt resource_id)
                       then http (untag_resource tok name resource_id "droplet")
                       else http (delete_tag tok name)
                   | None => http (delete_tag tok name)
                   end : M (world S) response) = http (absent_request tok name rid)).
  { unfold absent_request. by repeat case_match. }
  rewrite Hsame. exchange. generalize (absent_request tok name rid). intros req.
  unfold raise_for_status, exit_json, bind, raise, ret.
  destruct (Z.eqb_spec (status_code (answer req w)) 204) as [H204|H204].
  { intros <-. repeat split; intros; first [reflexivity | lia]. }
  destruct (Z.leb_spec 400 (status_code (answer req w)));
    destruct (Z.ltb_spec (status_code (answer req w)) 600);
    intros <-; repeat split; intros; first [reflexivity | lia].
Qed.

End TagPresent.

Lemma tag_present_always_reports_witness :
  let params := DigitalOceanTag.Params (Some "web") None "droplet" "present" (Some "XXX") in
  let w := boot [Response 200 (Some (JDict ∅)) 0] in
  snd (DigitalOceanTag.main true params ∅ w) = after (DigitalOceanTag.create_tag "XXX" "web") w /\
  failed (fst (DigitalOceanTag.main true params ∅ w)) = true.
Proof.
  cbv zeta.
  exact (tag_present_always_reports (Some "XXX") ∅ "XXX" "web"
           (boot [Response 200 (Some (JDict ∅)) 0]) eq_refl).
Defined.

Lemma failed_create_skips_the_attach_witness :
  let params := DigitalOceanTag.Params (Some "web") (Some 7) "droplet" "present" (Some "XXX") in
  let w := boot [Response 401 None 0] in
  DigitalOceanTag.main true params ∅ w =
    (Raise (SystemExit (FailJson
       {[ "msg" := JStr (str_exn (HTTPError
            (status_code (answer (DigitalOceanTag.create_tag "XXX" "web") w)))) ]})),
     after (DigitalOceanTag.create_tag "XXX" "web") w).
Proof.
  cbv zeta.
  apply (failed_create_skips_the_attach (Some "XXX") ∅ "XXX" "web" 7 (boot [Response 401 None 0])).
  - reflexivity.
  - vm_compute. split; [discriminate | reflexivity].
  - vm_compute. discriminate.
Defined.

Lemma absent_sends_one_delete_witness :
  let w := boot (State [] {[ "web" := {[ 5 ]} ]}) in
  let req := absent_request "XXX" "web" (Some 5) in
  let run := DigitalOceanTag.main true
               (DigitalOceanTag.Params (Some "web") (Some 5) "droplet" "absent" (Some "XXX")) ∅ w in
  method req = "DELETE" /\
  snd run = after req w /\
  (status_code (answer req w) = 204 ->
   fst run = Raise (SystemExit (ExitJson {[ "changed" := JBool true ]}))) /\
  (400 <= status_code (answer req w) < 600 ->
   fst run = Raise (SystemExit (FailJson
     {[ "msg" := JStr (str_exn (HTTPError (status_code (answer req w)))) ]}))).
Proof.
  cbv zeta.
  exact (absent_sends_one_delete (Some "XXX") ∅ "XXX" "web" (Some 5)
           (boot (State [] {[ "web" := {[ 5 ]} ]})) eq_refl).
Defined.
(** ** Credential resolution, case by case *)

(** X7: the credential both modules use.  It is the [api_token]
    parameter when that is a non-empty string; otherwise the variable
    [DO_API_TOKEN] when it is set and not empty; [DO_API_KEY] is read
    only when [DO_API_TOKEN] is set to the empty string.  The lookup
    fails exactly when the variable it reads is not set, with a
    [KeyError] that names the variable. *)
Theorem load_api_token_cases param environ :
  let unset := param = None \/ param = Some "" in
  (forall t,
     load_api_token param environ = Ok t <->
     (param = Some t /\ t <> "") \/
     (unset /\ environ !! "DO_API_TOKEN" = Some t /\ t <> "") \/
     (unset /\ environ !! "DO_API_TOKEN" = Some "" /\ environ !! "DO_API_KEY" = Some t)) /\
  (forall e,
     load_api_token param environ = Raise e <->
     (unset /\ environ !! "DO_API_TOKEN" = None /\ e = KeyError "DO_API_TOKEN") \/
     (unset /\ environ !! "DO_API_TOKEN" = Some "" /\ environ !! "DO_API_KEY" = None /\
      e = KeyError "DO_API_KEY")).
Proof.
  cbv zeta. unfold load_api_token, environ_get, rbind, truthy.
  assert (Heq : forall s, negb (String.eqb s "") = true <-> s <> "").
  { intros s. destruct (String.eqb_spec s ""); cbn; split; congruence. }
  assert (Hne : forall s, negb (String.eqb s "") = false <-> s = "").
  { intros s. destruct (String.eqb_spec s ""); cbn; split; congruence. }
  split; intros x; split.
  - intros H. repeat (case_match; simplify_eq/=);
      repeat match goal with
             | H : negb _ = true |- _ => apply Heq in H
             | H : negb _ = false |- _ => apply Hne in H; subst
             end; auto 10; try discriminate.
  - intros [[-> Ht] | [[Hu [Hv Ht]] | [Hu [Hv Hk]]]].
    + apply Heq in Ht. by rewrite Ht.
    + apply Heq in Ht. rewrite Hv, Ht. destruct Hu as [-> | ->]; reflexivity.
    + rewrite Hv, Hk. destruct Hu as [-> | ->]; reflexivity.
  - intros H. repeat (case_match; simplify_eq/=);
      repeat match goal with
             | H : negb _ = true |- _ => apply Heq in H
             | H : negb _ = false |- _ => apply Hne in H; subst
             end; auto 10; try discriminate.
  - intros [[Hu [Hv ->]] | [Hu [Hv [Hk ->]]]].
    + rewrite Hv. destruct Hu as [-> | ->]; reflexivity.
    + rewrite Hv, Hk. destruct Hu as [-> | ->]; reflexivity.
Qed.

Section DropletCredential.
Context {S : Type} `{!Remote S}.
Import DoDroplet.

(** X8: without a credential the droplet module sends nothing: it ends
    in [fail_json] with [Unable to load] and the name of the variable
    that is not set. *)
Theorem droplet_without_credential_sends_nothing params environ (w : world S) e :
  AnsibleModule params w = (Ok tt, w) ->
  load_api_token (p_api_token params) environ = Raise e ->
  exists key,
    e = KeyError key /\ (key = "DO_API_TOKEN" \/ key = "DO_API_KEY") /\
    main params environ w =
      (Raise (SystemExit (FailJson {[ "msg" := JStr (String.append "Unable to load " key) ]})), w).
Proof.
  intros Hmod He.
  assert (Hkey : exists key, e = KeyError key /\ (key = "DO_API_TOKEN" \/ key = "DO_API_KEY")).
  { revert He. unfold load_api_token, environ_get, rbind. intros He.
    repeat (case_match; simplify_eq/=); eauto. }
  destruct Hkey as (key & -> & Hkey). exists key. split; [reflexivity|]. split; [exact Hkey|].
  unfold main. rewrite (bind_eq_Ok _ _ _ _ _ Hmod).
  unfold try_except, core, bind, resolve_api_token, try_except, pure. rewrite He.
  cbn [is_KeyError exn_message fail_json raise is_TimeoutError].
  destruct Hkey as [-> | ->]; reflexivity.
Qed.

End DropletCredential.

Lemma droplet_without_credential_sends_nothing_witness :
  exists key,
    KeyError "DO_API_TOKEN" = KeyError key /\ (key = "DO_API_TOKEN" \/ key = "DO_API_KEY") /\
    DoDroplet.main
      (DoDroplet.Params "present" None (Some "mydroplet") (Some "2gb") (Some "fedora-19-x64")
         (Some "ams2") None true false false None false None (Some true) (Some 300))
      {[ "DO_API_KEY" := "secret" ]} (boot (State [] ∅)) =
      (Raise (SystemExit (FailJson {[ "msg" := JStr (String.append "Unable to load " key) ]})),
       boot (State [] ∅)).
Proof.
  apply (droplet_without_credential_sends_nothing
           (DoDroplet.Params "present" None (Some "mydroplet") (Some "2gb") (Some "fedora-19-x64")
              (Some "ams2") None true false false None false None (Some true) (Some 300))
           {[ "DO_API_KEY" := "secret" ]} (boot (State [] ∅)) (KeyError "DO_API_TOKEN"));
    reflexivity.
Defined.
(** ** Building blocks of the droplet module *)

Section Rest.
Import DoDroplet.

Lemma percent_two (a b : string) :
  py_percent "%s/%s" [a; b] = String.append a (String "/" b).
Proof.
  change (py_percent "%s/%s" [a; b]) with (String.append a (String "/" (String.append b ""))).
  by rewrite append_empty.
Qed.

(** X9: [Rest._url_builder] joins the base address and the path with one
    slash.  For a path that does not start with a slash, the path and
    the path with a slash before it give the same address; of two
    leading slashes only the first is dropped. *)
Theorem url_builder_drops_one_slash (path : string) :
  path <> "" -> is_prefix "/" path = false ->
  _url_builder path = String.append baseurl (String "/" path) /\
  _url_builder (String "/" path) = _url_builder path /\
  _url_builder (String "/" (String "/" path)) = String.append baseurl (String "/" (String "/" path)).
Proof.
  intros Hne Hslash. unfold _url_builder.
  assert (Hpath : match path with String "/" p => p | _ => path end = path).
  { destruct path as [|c p]; [reflexivity|].
    cbn in Hslash. destruct (Ascii.eqb_spec "/" c) as [<-|Hc]; [discriminate|].
    destruct c as [[] [] [] [] [] [] [] []]; try reflexivity. contradiction. }
  rewrite Hpath. rewrite !percent_two. auto.
Qed.

End Rest.

Lemma url_builder_drops_one_slash_witness :
  DoDroplet._url_builder "droplets" = String.append DoDroplet.baseurl "/droplets" /\
  DoDroplet._url_builder "/droplets" = DoDroplet._url_builder "droplets" /\
  DoDroplet._url_builder "//droplets" = String.append DoDroplet.baseurl "//droplets".
Proof. apply (url_builder_drops_one_slash "droplets"); [discriminate | reflexivity]. Defined.

Section Instance.
Context {S : Type} `{!Remote S}.
Import DoDroplet.

(** X10: [Droplet(document)] for a JSON object.  Every entry of the
    document becomes an attribute, and [status] is ['new'] unless the
    document says otherwise; so [is_powered_on] never fails on a fresh
    instance, and answers whether the document's status is ['active']. *)
Theorem new_instance_has_a_status (droplet_json : dict) (w : world S) :
  exists d,
    __init__ (JDict droplet_json) = Ok d /\
    (forall k, attrs d !! k =
       match droplet_json !! k with
       | Some v => Some v
       | None => if String.eqb k "status" then Some (JStr "new") else None
       end) /\
    is_powered_on (d, w) =
      (Ok (match droplet_json !! "status" with
           | Some v => py_eq v (AStr "active")
           | None => false
           end), (d, w)).
Proof.
  eexists. split; [reflexivity|].
  assert (Hk : forall k, (droplet_json ∪ ({[ "status" := JStr "new" ]} : dict)) !! k =
    match droplet_json !! k with
    | Some v => Some v
    | None => if String.eqb k "status" then Some (JStr "new") else None
    end).
  { intros k. rewrite lookup_union.
    destruct (droplet_json !! k) as [v|] eqn:Hv.
    - by destruct (({[ "status" := JStr "new" ]} : dict) !! k).
    - rewrite (left_id None _).
      destruct (String.eqb_spec k "status") as [->|Hk].
      + by simplify_map_eq.
      + by simplify_map_eq. }
  split; [exact Hk|].
  unfold is_powered_on, bind, getattr, ret. cbn [fst snd attrs].
  rewrite (Hk "status"). by destruct (droplet_json !! "status").
Qed.

End Instance.
Section UpdateAttr.
Context {S : Type} `{!Remote S}.
Import DoDroplet.
Variable api_token : string.




End UpdateAttr.

Section PopulateIps.
Import DoDroplet.

(** The addresses of the networks of one type, in the order of the
    document. *)
Definition addresses (type : string) (networks : list json) : list json :=
  omap (fun network =>
          match network with
          | JDict kv =>
              match kv !! "type" with
              | Some t => if py_eq t (AStr type) then kv !! "ip_address" else None
              | None => None
              end
          | _ => None
          end) networks.

Lemma populate_networks_last items : forall droplet d,
  populate_networks items droplet = Ok d ->
  d !! "ip_address" =
    from_option Some (droplet !! "ip_address") (last (addresses "public" items)) /\
  d !! "private_ip_address" =
    from_option Some (droplet !! "private_ip_address") (last (addresses "private" items)) /\
  (forall k, k <> "ip_address" -> k <> "private_ip_address" -> d !! k = droplet !! k).
Proof.
  induction items as [|n items IH]; intros droplet d Hp.
  - cbn in Hp. by simplify_eq.
  - cbn [populate_networks] in Hp. unfold rbind, getitem in Hp.
    destruct n as [| | | | |nkv]; try discriminate.
    destruct (nkv !! "type") as [t|] eqn:Ht; [|discriminate].
    unfold addresses. cbn [omap list_omap]. rewrite Ht.
    fold (addresses "public" items) (addresses "private" items).
    destruct (py_eq t (AStr "public")) eqn:Hpub; destruct (py_eq t (AStr "private")) eqn:Hpriv;
      try (destruct t; cbn in Hpub, Hpriv; try discriminate;
           apply String.eqb_eq in Hpub; apply String.eqb_eq in Hpriv; congruence);
      destruct (nkv !! "ip_address") as [ip|] eqn:Hip; try discriminate;
      apply IH in Hp as (Hpublic & Hprivate & Hrest);
      cbn [mbind option_bind mret option_ret]; rewrite ?last_cons;
      rewrite Hpublic, Hprivate;
      (split; [|split]);
      try (intros k Hk1 Hk2; rewrite (Hrest k Hk1 Hk2));
      simplify_map_eq; try reflexivity;
      repeat case_match; simplify_eq/=; reflexivity.
Qed.

(** X13: [_populate_droplet_ips] on a document whose [networks.v4] is a
    list.  When it returns, [ip_address] is the address of the last
    public network, or the empty string when there is none, whatever the
    document held before; [private_ip_address] is the address of the
    last private network, and is left alone when there is none; and no
    other entry of the document changes. *)
Theorem populate_reads_the_last_addresses (kv : dict) networks items d :
  kv !! "networks" = Some networks ->
  getitem networks "v4" = Ok (JList items) ->
  _populate_droplet_ips (JDict kv) = Ok d ->
  d !! "ip_address" = Some (default (JStr "") (last (addresses "public" items))) /\
  d !! "private_ip_address" =
    match last (addresses "private" items) with
    | Some ip => Some ip
    | None => kv !! "private_ip_address"
    end /\
  (forall k, k <> "ip_address" -> k <> "private_ip_address" -> d !! k = kv !! k).
Proof.
  intros Hn Hv4 Hp. unfold _populate_droplet_ips in Hp.
  assert (Hn' : getitem (JDict (<["ip_address" := JStr ""]> kv)) "networks" = Ok networks).
  { unfold getitem. by simplify_map_eq. }
  rewrite Hn' in Hp. cbn [rbind] in Hp. rewrite Hv4 in Hp. cbn [rbind index_items] in Hp.
  apply populate_networks_last in Hp as (Hpublic & Hprivate & Hrest).
  rewrite Hpublic, Hprivate. split; [|split].
  - simplify_map_eq. by destruct (last (addresses "public" items)).
  - simplify_map_eq. by destruct (last (addresses "private" items)).
  - intros k Hk1 Hk2. rewrite (Hrest k Hk1 Hk2). by simplify_map_eq.
Qed.

End PopulateIps.

(** Two public networks around a private one. *)
Definition three_networks : list json :=
  [JDict {[ "type" := JStr "public"; "ip_address" := JStr "203.0.113.7" ]};
   JDict {[ "type" := JStr "private"; "ip_address" := JStr "10.0.0.7" ]};
   JDict {[ "type" := JStr "public"; "ip_address" := JStr "203.0.113.8" ]}].

Lemma populate_reads_the_last_addresses_witness :
  let v4 := three_networks in
  let kv : dict := {[ "ip_address" := JStr "198.51.100.1";
                      "networks" := JDict {[ "v4" := JList v4 ]} ]} in
  match DoDroplet._populate_droplet_ips (JDict kv) with
  | Ok d =>
      d !! "ip_address" = Some (default (JStr "") (last (addresses "public" v4))) /\
      d !! "private_ip_address" =
        match last (addresses "private" v4) with
        | Some ip => Some ip
        | None => kv !! "private_ip_address"
        end /\
      (forall k, k <> "ip_address" -> k <> "private_ip_address" -> d !! k = kv !! k)
  | Raise _ => False
  end.
Proof.
  cbv zeta.
  destruct (DoDroplet._populate_droplet_ips _) as [d|e] eqn:Hp.
  - apply (populate_reads_the_last_addresses _ (JDict {[ "v4" := JList three_networks ]})
             three_networks); [reflexivity | reflexivity | exact Hp].
  - discriminate Hp.
Defined.
Section ShowDroplet.
Context {S : Type} `{!Remote S}.
Import DoDroplet.
Variable api_token : string.

(** X14: [_show_droplet] builds its path with ["/droplets/%s".format(id)],
    and [format] leaves [%s] alone: whatever the id, the one request
    goes to the address that ends in [/droplets/%s], so two droplets are
    fetched in the same way. *)
Theorem show_droplet_ignores_the_id (id id' : json) (w : world S) :
  _show_droplet api_token id w = _show_droplet api_token id' w /\
  sent (snd (_show_droplet api_token id w)) = sent w ++ [show_request api_token] /\
  url (show_request api_token) = "https://api.digitalocean.com/v2/droplets/%s".
Proof.
  split; [|split].
  - unfold _show_droplet. by rewrite !send_show.
  - destruct (_show_droplet api_token id w) as [r w'] eqn:Hshow.
    apply show_effects in Hshow as [-> _]. reflexivity.
  - reflexivity.
Qed.

End ShowDroplet.
(** ** The wait loop, whatever the service answers *)

(** The exceptions of reading a document or an instance. *)
Definition reading_error (e : exn) : bool :=
  match e with
  | KeyError _ | TypeError _ | AttributeError _ => true
  | _ => false
  end.

(** The two timeouts of [ensure_powered_on]. *)
Definition wait_timeout_error (e : exn) : bool :=
  match e with
  | TimeoutError msg _ =>
      String.eqb msg "Wait for droplet running timeout" || String.eqb msg "No ip is found."
  | _ => false
  end.

Section WaitAlways.
Context {S : Type} `{!Remote S}.
Import DoDroplet.
Variable api_token : string.

Lemma populate_networks_reading networks : forall droplet e,
  populate_networks networks droplet = Raise e -> reading_error e = true.
Proof.
  induction networks as [|n l IH]; intros droplet e Hp; [discriminate|].
  cbn [populate_networks] in Hp. unfold rbind, getitem in Hp.
  repeat (case_match; simplify_eq/=); try reflexivity; eapply IH; eassumption.
Qed.

Lemma populate_reading doc e :
  _populate_droplet_ips doc = Raise e -> reading_error e = true.
Proof.
  unfold _populate_droplet_ips, rbind, getitem, index_items. intros H.
  repeat first
    [ match goal with
      | H : populate_networks _ _ = Raise _ |- _ => apply populate_networks_reading in H
      end
    | case_match; simplify_eq/= ]; auto.
Qed.

Lemma show_reading id (w : world S) e w' :
  _show_droplet api_token id w = (Raise e, w') -> reading_error e = true.
Proof.
  unfold _show_droplet, send. rewrite (bind_eq_Ok _ _ _ _ _ (http_eq _ _)).
  unfold bind, pure, getitem. intros H.
  repeat first
    [ match goal with
      | H : _populate_droplet_ips _ = Raise _ |- _ => apply populate_reading in H
      end
    | case_match; simplify_eq/= ]; auto.
Qed.

Lemma update_attr_reading a (st : Droplet * world S) e st' :
  update_attr api_token a st = (Raise e, st') -> reading_error e = true.
Proof.
  destruct st as [d w].
  unfold update_attr, setattrs, bind, getattr, lift, pure, ret, getitem. cbn [fst snd].
  intros H.
  repeat first
    [ match goal with
      | H : _show_droplet _ _ _ = (Raise _, _) |- _ => apply show_reading in H
      end
    | case_match; simplify_eq/= ]; auto.
Qed.

(** What one turn of the loop does to the world, however the fetch
    ends: one sleep, then one request. *)
Lemma poll_effects end_time d (w : world S) r st' :
  is_Some (attrs d !! "id") -> now w < end_time ->
  poll api_token end_time (d, w) = (r, st') ->
  snd st' = after (show_request api_token) (nap end_time w) /\
  is_Some (attrs (fst st') !! "id") /\
  match r with Raise e => reading_error e = true | Ok _ => True end.
Proof.
  intros [i Hi] Hlt. unfold poll.
  assert (Ht : lift time_time (d, w) = (Ok (now w), (d, w))) by reflexivity.
  rewrite (bind_eq_Ok _ _ _ _ _ Ht).
  assert (Hs : lift (time_sleep (Z.min 20 (end_time - now w))) (d, w) = (Ok tt, (d, nap end_time w))).
  { unfold lift, time_sleep. cbn.
    destruct (Z.ltb_spec (Z.min 20 (end_time - now w)) 0); [lia | reflexivity]. }
  rewrite (bind_eq_Ok _ _ _ _ _ Hs).
  unfold update_attr.
  assert (Hg : getattr "id" (d, nap end_time w) = (Ok i, (d, nap end_time w)))
    by (unfold getattr; cbn; by rewrite Hi).
  unfold bind at 1. rewrite (bind_eq_Ok _ _ _ _ _ Hg).
  destruct (_show_droplet api_token i (nap end_time w)) as [rs w1] eqn:Hshow.
  pose proof (show_effects _ _ _ _ _ Hshow) as [-> _].
  unfold is_powered_on, setattrs, bind, lift, getattr, pure, ret, getitem. cbn [fst snd].
  rewrite Hshow. intros H.
  repeat first
    [ match goal with
      | H : _show_droplet _ _ _ = (Raise _, _) |- _ => apply show_reading in H
      end
    | case_match; simplify_eq/= ];
    repeat split; eauto; apply lookup_union_is_Some; right; eauto.
Qed.

Lemma clock_after req (w : world S) : now w <= now (after req w).
Proof. unfold after. cbn [now]. lia. Qed.

(** X15: the wait loop of a droplet that has an id, whatever the
    service answers.  Every turn is one sleep followed by one fetch, so
    there are as many fetches as sleeps; nothing else is sent; and with
    a budget of [b] seconds left the loop takes at most [b / 20] turns,
    rounded up. *)
Theorem wait_loop_polls_once_per_sleep end_time (st : Droplet * world S) :
  is_Some (attrs (fst st) !! "id") ->
  let st' := snd (wait_loop api_token end_time st) in
  exists turns : nat,
    sent (snd st') = sent (snd st) ++ repeat (show_request api_token) turns /\
    List.length (slept (snd st')) = (List.length (slept (snd st)) + turns)%nat /\
    20 * Z.of_nat turns <= Z.max 0 (end_time - now (snd st)) + 19.
Proof.
  cbv zeta. funelim (wait_loop api_token end_time st); intros Hid.
  - exists 0%nat. destruct st as [d w]. cbn [fst snd] in *. destruct Hid as [i Hi].
    unfold raise_timeout, bind, getattr, raise. cbn [fst snd]. rewrite Hi. cbn [fst snd repeat].
    rewrite app_nil_r, Nat.add_0_r. repeat split; lia.
  - destruct st as [d w]. cbn [fst snd] in *. pose proof (proj1 (Z.ltb_lt _ _) Hlt) as Hlt'.
    match goal with
    | Hp : poll _ _ _ = _ |- _ => pose proof (poll_effects _ _ _ _ _ Hid Hlt' Hp) as (Hw & _ & _)
    end.
    exists 1%nat.
    assert (Hsame : snd (snd (check_ip st')) = snd st').
    { unfold check_ip, raise_timeout, bind, getattr, raise, ret.
      repeat (case_match; simplify_eq/=); reflexivity. }
    rewrite Hsame, Hw. unfold after, nap. cbn [sent slept repeat].
    rewrite length_app. cbn [List.length]. repeat split; lia.
  - destruct st as [d w]. cbn [fst snd] in *. pose proof (proj1 (Z.ltb_lt _ _) Hlt) as Hlt'.
    match goal with
    | Hp : poll _ _ _ = _ |- _ => pose proof (poll_effects _ _ _ _ _ Hid Hlt' Hp) as (Hw & Hid' & _)
    end.
    destruct (H Hid') as (turns & Hsent & Hslept & Hbound).
    exists (Datatypes.S turns). rewrite Hsent, Hslept, Hw.
    pose proof (clock_after (show_request api_token) (nap end_time w)) as Hclock.
    rewrite Hw in Hbound.
    unfold after, nap in *. cbn [sent slept now repeat] in *.
    rewrite length_app, <- app_assoc. cbn [List.length app]. repeat split; lia.
  - destruct st as [d w]. cbn [fst snd] in *. pose proof (proj1 (Z.ltb_lt _ _) Hlt) as Hlt'.
    match goal with
    | Hp : poll _ _ _ = _ |- _ => pose proof (poll_effects _ _ _ _ _ Hid Hlt' Hp) as (Hw & _ & _)
    end.
    exists 1%nat. cbn [snd] in *. rewrite Hw. unfold after, nap. cbn [sent slept repeat].
    rewrite length_app. cbn [List.length]. repeat split; lia.
Qed.

Lemma poll_reading end_time (st : Droplet * world S) e st' :
  now (snd st) < end_time ->
  poll api_token end_time st = (Raise e, st') -> reading_error e = true.
Proof.
  destruct st as [d w]. cbn [snd]. intros Hlt.
  unfold poll, is_powered_on, bind, lift, time_time, time_sleep, getattr, ret. cbn [fst snd].
  destruct (Z.ltb_spec (Z.min 20 (end_time - now w)) 0) as [?|_]; [lia|]. intros Hrun.
  repeat first
    [ match goal with
      | H : update_attr _ _ _ = (Raise _, _) |- _ => apply update_attr_reading in H
      end
    | case_match; simplify_eq/= ]; auto.
Qed.

Lemma wait_loop_escapes end_time (st : Droplet * world S) :
  forall e st', wait_loop api_token end_time st = (Raise e, st') ->
  reading_error e || wait_timeout_error e = true.
Proof.
  funelim (wait_loop api_token end_time st); intros e' st'' Hr.
  - unfold raise_timeout, bind, getattr, raise in Hr. repeat (case_match; simplify_eq/=); auto.
  - unfold check_ip, raise_timeout, bind, getattr, raise, ret in Hr.
    repeat (case_match; simplify_eq/=); auto.
  - eauto.
  - injection Hr as <- <-. pose proof (proj1 (Z.ltb_lt _ _) Hlt) as Hlt'.
    match goal with
    | Hp : poll _ _ _ = _ |- _ => rewrite (poll_reading _ _ _ _ Hlt' Hp)
    end.
    reflexivity.
Qed.

(** [isinstance(e, AssertionError)] *)
Definition is_AssertionError (e : exn) : bool :=
  match e with AssertionError _ => true | _ => false end.

(** X16: the assertion of [power_on] never fails inside
    [ensure_powered_on]: whatever the instance holds and the service
    answers, [ensure_powered_on] raises no [AssertionError], since it
    calls [power_on] only for an instance whose status is ['off'].  Nor
    does it end the process: what it raises is never [SystemExit]. *)
Theorem ensure_powered_on_meets_the_assertion wait wait_timeout (st : Droplet * world S) :
  match fst (ensure_powered_on api_token wait wait_timeout st) with
  | Ok _ => True
  | Raise e => is_AssertionError e = false /\ is_Exception e = true
  end.
Proof.
  destruct (ensure_powered_on api_token wait wait_timeout st) as [[[]|e] st'] eqn:Hrun;
    [exact I|]. cbn [fst]. revert Hrun.
  assert (Hdata : forall e', reading_error e' || wait_timeout_error e' = true ->
                    is_AssertionError e' = false /\ is_Exception e' = true).
  { intros e' He'. by destruct e'. }
  destruct st as [d w].
  unfold ensure_powered_on, power_on, _power_on_droplet, is_powered_on, bind, getattr, lift,
    time_time, ret, raise. cbn [fst snd]. intros H.
  repeat first
    [ match goal with
      | H : update_attr _ _ _ = (Raise _, _) |- _ => apply update_attr_reading in H
      | H : wait_loop _ _ _ = (Raise _, _) |- _ => apply wait_loop_escapes in H
      end
    | case_match; simplify_eq/= ]; auto;
    first [ congruence
          | apply Hdata; assumption
          | apply Hdata;
            match goal with H : reading_error _ = true |- _ => by rewrite H end ].
Qed.

(** X17: [ensure_powered_on] with [wait] off never sleeps and raises no
    timeout.  It sends nothing, except for a droplet whose status is
    ['off']: then one request is sent, and that request is the fetch of
    the droplet, since [_power_on_droplet] is empty. *)
Theorem ensure_powered_on_without_wait wait_timeout (st : Droplet * world S) :
  let run := ensure_powered_on api_token false wait_timeout st in
  slept (snd (snd run)) = slept (snd st) /\
  (sent (snd (snd run)) = sent (snd st) \/
   attr_is "status" (AStr "off") (fst st) = true /\
   sent (snd (snd run)) = sent (snd st) ++ [show_request api_token]) /\
  match fst run with Raise e => wait_timeout_error e = false | Ok _ => True end.
Proof.
  cbv zeta. destruct st as [d w]. cbn [fst snd].
  destruct (ensure_powered_on api_token false wait_timeout (d, w)) as [r [d' w']] eqn:Hrun.
  cbn [fst snd]. revert Hrun.
  unfold ensure_powered_on, power_on, _power_on_droplet, update_attr, is_powered_on, setattrs,
    attr_is, bind, getattr, lift, pure, getitem, ret, raise. cbn [fst snd]. intros H.
  repeat first
    [ match goal with
      | H : _show_droplet _ _ _ = _ |- _ =>
          let Hr := fresh in
          pose proof H as Hr; apply show_effects in Hr as [-> _];
          match type of H with
          | _ = (Raise _, _) => apply show_reading in H
          | _ => clear H
          end
      end
    | case_match; simplify_eq/= ];
    repeat split; auto;
    try match goal with H : reading_error ?e = true |- _ => by destruct e end.
Qed.

End WaitAlways.

Lemma wait_loop_polls_once_per_sleep_witness :
  let st := (fresh_droplet, boot (Booting 100)) in
  let st' := snd (DoDroplet.wait_loop "XXX" 60 st) in
  exists turns : nat,
    sent (snd st') = sent (snd st) ++ repeat (DoDroplet.show_request "XXX") turns /\
    List.length (slept (snd st')) = (List.length (slept (snd st)) + turns)%nat /\
    20 * Z.of_nat turns <= Z.max 0 (60 - now (snd st)) + 19.
Proof.
  apply (wait_loop_polls_once_per_sleep "XXX" 60 (fresh_droplet, boot (Booting 100))).
  eexists. reflexivity.
Defined.
(** ** Lookup and creation in the droplet module *)

Section FindAnswers.
Context {S : Type} `{!Remote S}.
Import DoDroplet.
Variable api_token : string.

(** X18: what [find] answers, over the droplets that [list_all] hands
    to it, when an id or a name is given and every listed droplet has
    both attributes.  A droplet it returns is one of the listed ones and
    carries the id or the name asked for; and it answers [False] only
    when no listed droplet carries either. *)
Theorem find_answers_with_a_listed_match id name (w : world S) droplets w1 :
  list_all api_token w = (Ok droplets, w1) ->
  truthy_atom id || truthy_atom name = true ->
  Forall (fun d => is_Some (attrs d !! "id")) droplets ->
  Forall (fun d => is_Some (attrs d !! "name")) droplets ->
  exists v,
    find api_token id name w = (Ok v, w1) /\
    match v with
    | VDroplet d =>
        d ∈ droplets /\ (attr_is "id" id d = true \/ attr_is "name" name d = true)
    | VFalse =>
        forall d, d ∈ droplets -> attr_is "id" id d = false /\ attr_is "name" name d = false
    | VJson _ => False
    end.
Proof.
  intros Hl Hguard Hids Hnames.
  assert (Hfind : find api_token id name w =
    (let* by_id := pure (first_with "id" id droplets) in
     match by_id with
     | Some droplet => ret (VDroplet droplet)
     | None =>
         let* by_name := pure (first_with "name" name droplets) in
         match by_name with
         | Some droplet => ret (VDroplet droplet)
         | None => ret VFalse
         end
     end) w1).
  { unfold find. destruct (truthy_atom id), (truthy_atom name); try discriminate;
      cbn [negb andb]; rewrite (bind_eq_Ok _ _ _ _ _ Hl); reflexivity. }
  rewrite Hfind. unfold bind, pure, ret.
  rewrite (first_with_find _ _ _ Hids), (first_with_find _ _ _ Hnames).
  destruct (List.find (attr_is "id" id) droplets) as [d|] eqn:Hid.
  - exists (VDroplet d). split; [reflexivity|].
    apply List.find_some in Hid as [Hin Hd]. split; [by apply list_elem_of_In | by left].
  - destruct (List.find (attr_is "name" name) droplets) as [d|] eqn:Hname.
    + exists (VDroplet d). split; [reflexivity|].
      apply List.find_some in Hname as [Hin Hd]. split; [by apply list_elem_of_In | by right].
    + exists VFalse. split; [reflexivity|]. intros d Hin. apply list_elem_of_In in Hin.
      split; [eapply List.find_none in Hid | eapply List.find_none in Hname]; eassumption.
Qed.

End FindAnswers.

Lemma find_answers_with_a_listed_match_witness :
  let twins := State [droplet_doc 1 "web" "active"; droplet_doc 2 "web" "active"] ∅ in
  let droplets := [instance_of (droplet_doc 1 "web" "active");
                   instance_of (droplet_doc 2 "web" "active")] in
  exists v,
    DoDroplet.find "XXX" (AInt 5) (AStr "web") (boot twins) =
      (Ok v, snd (DoDroplet.list_all "XXX" (boot twins))) /\
    match v with
    | DoDroplet.VDroplet d =>
        d ∈ droplets /\ (DoDroplet.attr_is "id" (AInt 5) d = true \/
                         DoDroplet.attr_is "name" (AStr "web") d = true)
    | DoDroplet.VFalse =>
        forall d, d ∈ droplets -> DoDroplet.attr_is "id" (AInt 5) d = false /\
                                  DoDroplet.attr_is "name" (AStr "web") d = false
    | DoDroplet.VJson _ => False
    end.
Proof.
  cbv zeta.
  apply (find_answers_with_a_listed_match "XXX" (AInt 5) (AStr "web")
           (boot (State [droplet_doc 1 "web" "active"; droplet_doc 2 "web" "active"] ∅))).
  - vm_compute. reflexivity.
  - reflexivity.
  - repeat constructor; vm_compute; eauto.
  - repeat constructor; vm_compute; eauto.
Defined.

Section LookupSkipped.
Context {S : Type} `{!Remote S}.
Import DoDroplet.

Lemma lookup_without_key tok params (w : world S) :
  truthy_atom (atom_of_int (p_id params)) = false -> p_unique_name params = false ->
  lookup tok params w = (Ok VFalse, w).
Proof.
  intros Hid Hu. unfold lookup, find. rewrite Hid, Hu. reflexivity.
Qed.

(** X19: [state] absent or deleted with no id (or the id 0) and
    [unique_name] off.  The name is never looked up: without a single
    request the module reports [changed=False] and that the droplet is
    not found, whether or not a droplet of that name exists. *)
Theorem absent_by_name_alone_sends_nothing params environ tok (w : world S) :
  p_state params ∈ ["absent"; "deleted"] ->
  AnsibleModule params w = (Ok tt, w) ->
  load_api_token (p_api_token params) environ = Ok tok ->
  truthy_atom (atom_of_int (p_id params)) = false ->
  p_unique_name params = false ->
  main params environ w =
    (Raise (SystemExit (ExitJson {[ "changed" := JBool false;
                                    "msg" := JStr "The droplet is not found." ]})), w).
Proof.
  intros Hst Hmod Htok Hid Hu. apply main_exit; [exact Hmod|].
  eapply absent_not_found; [exact Hst | exact Htok |].
  by apply lookup_without_key.
Qed.

End LookupSkipped.

Lemma absent_by_name_alone_sends_nothing_witness :
  DoDroplet.main (droplet_params "absent" None (Some "a") false true) ∅ (boot two_droplets) =
    (Raise (SystemExit (ExitJson {[ "changed" := JBool false;
                                    "msg" := JStr "The droplet is not found." ]})),
     boot two_droplets).
Proof.
  apply (absent_by_name_alone_sends_nothing (droplet_params "absent" None (Some "a") false true)
           ∅ "XXX" (boot two_droplets)).
  - apply list_elem_of_here.
  - reflexivity.
  - reflexivity.
  - reflexivity.
  - reflexivity.
Defined.
Section Creation.
Context {S : Type} `{!Remote S}.
Import DoDroplet.

Lemma percent_one (k : string) :
  py_percent "Unable to load %s" [k] = String.append "Unable to load " k.
Proof.
  change (py_percent "Unable to load %s" [k])
    with (String.append "Unable to load " (String.append k "")).
  by rewrite append_empty.
Qed.

(** The first of the four fields of a new droplet that is not given. *)
Definition first_missing (params : params) : option string :=
  match p_name params, p_size params, p_image params, p_region params with
  | None, _, _, _ => Some "name"
  | _, None, _, _ => Some "size"
  | _, _, None, _ => Some "image"
  | _, _, _, None => Some "region"
  | _, _, _, _ => None
  end.

(** X20: [state] present or active when the lookup finds no droplet.
    A droplet is created only with a name, a size, an image and a
    region: when one of them is missing the module ends in [fail_json]
    with [Unable to load] and the first missing one, in that order, and
    sends nothing after the lookup. *)
Theorem create_needs_every_field params environ tok (w : world S) w1 field :
  p_state params ∈ ["active"; "present"] ->
  AnsibleModule params w = (Ok tt, w) ->
  load_api_token (p_api_token params) environ = Ok tok ->
  lookup tok params w = (Ok VFalse, w1) ->
  first_missing params = Some field ->
  main params environ w =
    (Raise (SystemExit (FailJson {[ "msg" := JStr (String.append "Unable to load " field) ]})),
     w1).
Proof.
  intros Hst Hmod Htok Hl Hmissing. apply main_exit; [exact Hmod|].
  unfold core. rewrite (bind_eq_Ok _ _ _ _ _ (resolve_Ok _ _ _ _ Htok)).
  rewrite (bool_decide_eq_true_2 _ Hst).
  rewrite (bind_eq_Ok _ _ _ _ _ Hl). cbn [value_truthy negb].
  unfold getkeyordie, bind, fail_json, raise, ret. rewrite !percent_one.
  unfold first_missing in Hmissing.
  destruct (p_name params); [|by simplify_eq].
  destruct (p_size params); [|by simplify_eq].
  destruct (p_image params); [|by simplify_eq].
  destruct (p_region params); [|by simplify_eq].
  discriminate.
Qed.

(** The request of [Droplet.add] as [core] calls it. *)
Definition create_request (tok : string) (params : params) (name size image region : string)
  : request :=
  Request "POST" (_url_builder "/droplets") (rest_headers tok)
    (Some (JDict {[ "name" := JStr name;
                    "size" := JStr size;
                    "image" := JStr image;
                    "region" := JStr region;
                    "ssh_key_ids" := from_option JList JNull (p_ssh_key_ids params);
                    "virtio" := JBool (p_virtio params);
                    "private_networking_lower" :=
                      JStr (lower (py_str (JBool (p_private_networking params))));
                    "backups_enabled_lower" :=
                      JStr (lower (py_str (JBool (p_backups_enabled params))));
                    "user_data" := from_option JStr JNull (p_user_data params) ]})).

Lemma add_is_one_request tok params name size image region (w : world S) :
  add tok name size image region
    (from_option JList JNull (p_ssh_key_ids params))
    (JBool (p_virtio params)) (JBool (p_private_networking params))
    (JBool (p_backups_enabled params)) (from_option JStr JNull (p_user_data params)) w =
  (let* response := http (create_request tok params name size image region) in
   let* _ := pure (contains "droplet" (json_of response)) in
   pure (getitem (json_of response) "droplet")) w.
Proof. reflexivity. Qed.

(** X21: [state] present or active when the lookup finds no droplet and
    the four fields are given.  The module sends one POST to [/droplets]
    and then never reports: [Droplet.add] returns the parsed document,
    not an instance, so when the response carries a droplet the call of
    [is_powered_on] raises [AttributeError], and in no case does the
    invocation end in [exit_json]. *)
Theorem created_droplet_is_never_reported params environ tok (w : world S) w1
    name size image region :
  p_state params ∈ ["active"; "present"] ->
  AnsibleModule params w = (Ok tt, w) ->
  load_api_token (p_api_token params) environ = Ok tok ->
  lookup tok params w = (Ok VFalse, w1) ->
  p_name params = Some name -> p_size params = Some size ->
  p_image params = Some image -> p_region params = Some region ->
  let req := create_request tok params name size image region in
  let run := main params environ w in
  method req = "POST" /\
  url req = "https://api.digitalocean.com/v2/droplets" /\
  snd run = after req w1 /\
  changed_of (fst run) = None /\
  (forall kv doc, body (answer req w1) = Some (JDict kv) -> kv !! "droplet" = Some doc ->
     fst run = Raise (AttributeError "is_powered_on")).
Proof.
  intros Hst Hmod Htok Hl Hname Hsize Himage Hregion. cbv zeta.
  split; [reflexivity|]. split; [reflexivity|].
  assert (Hcore : core params environ w =
    (let* created :=
       (let* response := http (create_request tok params name size image region) in
        let* _ := pure (contains "droplet" (json_of response)) in
        pure (getitem (json_of response) "droplet")) in
     (raise (AttributeError "is_powered_on") : M (world S) unit)) w1).
  { unfold core. rewrite (bind_eq_Ok _ _ _ _ _ (resolve_Ok _ _ _ _ Htok)).
    rewrite (bool_decide_eq_true_2 _ Hst).
    rewrite (bind_eq_Ok _ _ _ _ _ Hl). cbn [value_truthy negb].
    rewrite Hname, Hsize, Himage, Hregion.
    unfold getkeyordie. unfold bind at 1. unfold bind at 1. unfold ret at 1.
    unfold bind at 1. unfold ret at 1. unfold bind at 1. unfold ret at 1.
    unfold bind at 1. unfold ret at 1. unfold bind at 1.
    rewrite add_is_one_request. unfold bind, ret, raise, pure. rewrite http_eq.
    repeat (case_match; simplify_eq/=); reflexivity. }
  assert (Hmain : main params environ w = core params environ w).
  { unfold main. rewrite (bind_eq_Ok _ _ _ _ _ Hmod). unfold try_except.
    rewrite Hcore. unfold bind, pure, raise. rewrite http_eq. unfold contains, getitem.
    repeat (case_match; simplify_eq/=); reflexivity. }
  rewrite Hmain, Hcore. unfold bind, pure, raise. rewrite http_eq. unfold contains, getitem.
  split; [|split].
  - repeat (case_match; simplify_eq/=); reflexivity.
  - repeat (case_match; simplify_eq/=); reflexivity.
  - intros kv doc Hb Hd. unfold json_of. rewrite Hb, Hd. reflexivity.
Qed.

End Creation.

Lemma create_needs_every_field_witness :
  DoDroplet.main
    (DoDroplet.Params "present" (Some "XXX") (Some "mydroplet") None None None
       None true false false None false None (Some true) (Some 300)) ∅ (boot (State [] ∅)) =
    (Raise (SystemExit (FailJson {[ "msg" := JStr (String.append "Unable to load " "size") ]})),
     boot (State [] ∅)).
Proof.
  apply (create_needs_every_field
           (DoDroplet.Params "present" (Some "XXX") (Some "mydroplet") None None None
              None true false false None false None (Some true) (Some 300)) ∅ "XXX"
           (boot (State [] ∅)) (boot (State [] ∅)) "size").
  - apply list_elem_of_further, list_elem_of_here.
  - reflexivity.
  - reflexivity.
  - reflexivity.
  - reflexivity.
Defined.

Lemma created_droplet_is_never_reported_witness :
  let params := droplet_params "present" None (Some "mydroplet") false true in
  let w := boot (State [] ∅) in
  let req := create_request "XXX" params "mydroplet" "2gb" "fedora-19-x64" "ams2" in
  let run := DoDroplet.main params ∅ w in
  method req = "POST" /\
  url req = "https://api.digitalocean.com/v2/droplets" /\
  snd run = after req w /\
  changed_of (fst run) = None /\
  (forall kv doc, body (answer req w) = Some (JDict kv) -> kv !! "droplet" = Some doc ->
     fst run = Raise (AttributeError "is_powered_on")).
Proof.
  cbv zeta.
  apply (created_droplet_is_never_reported
           (droplet_params "present" None (Some "mydroplet") false true) ∅ "XXX"
           (boot (State [] ∅)) (boot (State [] ∅)) "mydroplet" "2gb" "fedora-19-x64" "ams2").
  - apply list_elem_of_further, list_elem_of_here.
  - reflexivity.
  - reflexivity.
  - reflexivity.
  - reflexivity.
  - reflexivity.
  - reflexivity.
  - reflexivity.
Defined.
Section ListingFails.
Context {S : Type} `{!Remote S}.
Import DoDroplet.

Lemma listing_KeyError tok (w : world S) kv :
  body (answer (listing_request tok) w) = Some (JDict kv) ->
  kv !! "droplets" = None ->
  _all_active_droplets tok w = (Raise (KeyError "droplets"), after (listing_request tok) w).
Proof.
  intros Hb Hx. unfold _all_active_droplets. rewrite send_listing. exchange.
  unfold json_of. rewrite Hb. unfold bind, pure, ret, contains, getitem.
  rewrite Hx. rewrite bool_decide_eq_false_2; [reflexivity|].
  intros [x Hsome]. discriminate.
Qed.

(** X22: a listing whose document has no [droplets], as the service
    sends it with an error status.  Whenever the module lists the
    droplets, for the lookup by id or for [state=debug], the [KeyError]
    of reading that document escapes from [main], which handles timeouts
    only: the invocation ends without [exit_json] or [fail_json], after
    the one request. *)
Theorem listing_without_droplets_escapes params environ tok (w : world S) kv :
  AnsibleModule params w = (Ok tt, w) ->
  load_api_token (p_api_token params) environ = Ok tok ->
  p_state params = "debug" \/ truthy_atom (atom_of_int (p_id params)) = true ->
  body (answer (listing_request tok) w) = Some (JDict kv) ->
  kv !! "droplets" = None ->
  main params environ w = (Raise (KeyError "droplets"), after (listing_request tok) w).
Proof.
  intros Hmod Htok Hlists Hb Hx.
  pose proof (listing_KeyError tok w kv Hb Hx) as Hlisting.
  assert (Hchoice : p_state params ∈ state_choices).
  { unfold AnsibleModule in Hmod.
    destruct (bool_decide (p_state params ∈ state_choices)) eqn:Hc; [|discriminate].
    by apply bool_decide_eq_true_1 in Hc. }
  unfold main. rewrite (bind_eq_Ok _ _ _ _ _ Hmod). unfold try_except, core.
  rewrite (bind_eq_Ok _ _ _ _ _ (resolve_Ok _ _ _ _ Htok)).
  assert (Hlookup : truthy_atom (atom_of_int (p_id params)) = true ->
            lookup tok params w = (Raise (KeyError "droplets"), after (listing_request tok) w)).
  { intros Hid. unfold lookup, find, list_all. rewrite Hid. cbn [negb andb].
    unfold bind. rewrite Hlisting. reflexivity. }
  unfold state_choices in Hchoice.
  repeat (apply elem_of_cons in Hchoice as [Hstate|Hchoice]);
    [ rewrite Hstate in *.. | by apply elem_of_nil in Hchoice ].
  - destruct Hlists as [?|Hid]; [discriminate|].
    change (bool_decide ("active" ∈ ["active"; "present"])) with true. cbv iota.
    unfold bind. rewrite (Hlookup Hid). reflexivity.
  - destruct Hlists as [?|Hid]; [discriminate|].
    change (bool_decide ("present" ∈ ["active"; "present"])) with true. cbv iota.
    unfold bind. rewrite (Hlookup Hid). reflexivity.
  - destruct Hlists as [?|Hid]; [discriminate|].
    change (bool_decide ("absent" ∈ ["active"; "present"])) with false.
    change (bool_decide ("absent" ∈ ["absent"; "deleted"])) with true. cbv iota.
    unfold bind. rewrite (Hlookup Hid). reflexivity.
  - destruct Hlists as [?|Hid]; [discriminate|].
    change (bool_decide ("deleted" ∈ ["active"; "present"])) with false.
    change (bool_decide ("deleted" ∈ ["absent"; "deleted"])) with true. cbv iota.
    unfold bind. rewrite (Hlookup Hid). reflexivity.
  - change (bool_decide ("debug" ∈ ["active"; "present"])) with false.
    change (bool_decide ("debug" ∈ ["absent"; "deleted"])) with false.
    change (is_substring "debug" "debug") with true. cbv iota.
    unfold bind. rewrite Hlisting. reflexivity.
Qed.

End ListingFails.

(** The service refuses the credential. *)
Definition unauthorized : response :=
  Response 401 (Some (JDict {[ "id" := JStr "unauthorized";
                               "message" := JStr "Unable to authenticate you." ]})) 0.

Lemma listing_without_droplets_escapes_witness :
  DoDroplet.main (droplet_params "absent" (Some 1) None false true) ∅ (boot [unauthorized]) =
    (Raise (KeyError "droplets"),
     after (DoDroplet.listing_request "XXX") (boot [unauthorized])).
Proof.
  apply (listing_without_droplets_escapes (droplet_params "absent" (Some 1) None false true)
           ∅ "XXX" (boot [unauthorized])
           {[ "id" := JStr "unauthorized"; "message" := JStr "Unable to authenticate you." ]}).
  - reflexivity.
  - reflexivity.
  - right. reflexivity.
  - reflexivity.
  - reflexivity.
Defined.
(** ** From the lookup to the report *)

Section WaitReported.
Context {S : Type} `{!Remote S}.
Import DoDroplet.
Variable api_token : string.

(** Every fetch of the droplet is answered with a document that
    [_show_droplet] can read. *)
Hypothesis fetched : forall id w, exists d w', _show_droplet api_token id w = (Ok d, w').



End WaitReported.


(** ** Reading a response *)

Section ResponseJson.
Import DoDroplet.
Variable loads : string -> option json.

(** X24: the property [json] of [Response].  A body that was read never
    makes it fail: text that [json.loads] refuses reads as [None].  It
    raises exactly when no body was read (or an empty one) and [info]
    carries a [body] that [json.loads] refuses, a case the [try] of the
    property does not cover. *)
Theorem response_json_fails_only_on_info (self : Response.t) :
  (forall text, Response.body self = Some text -> text <> "" ->
     Response.json loads self = Ok (default JNull (loads text))) /\
  (forall e,
     Response.json loads self = Raise e <->
     (Response.body self = None \/ Response.body self = Some "") /\
     exists text, Response.info self !! "body" = Some text /\
                  Response.json_loads loads text = Raise e).
Proof.
  destruct self as [body info]. cbn [Response.body Response.info].
  unfold Response.json. cbn [Response.body Response.info].
  split.
  - intros text -> Hne. cbn [from_option truthy].
    destruct (String.eqb_spec text ""); [contradiction|]. cbn [negb Response.json_loads].
    by destruct (loads text).
  - intros e. unfold contains, getitem, rbind.
    destruct body as [text|]; cbn [from_option truthy].
    + destruct (String.eqb_spec text "") as [->|Hne]; cbn [negb].
      * destruct (info !! "body") as [t|] eqn:Hi.
        -- rewrite bool_decide_eq_true_2 by eauto. split.
           ++ intros H. split; [by right | eauto].
           ++ intros (_ & t' & Ht' & H). by simplify_eq.
        -- rewrite bool_decide_eq_false_2 by (intros [? ?]; discriminate). split.
           ++ discriminate.
           ++ intros (_ & t' & Ht' & _). discriminate.
      * cbn [Response.json_loads]. split.
        -- destruct (loads text); discriminate.
        -- intros ([?|?] & _); congruence.
    + cbn [negb].
      destruct (info !! "body") as [t|] eqn:Hi.
      * rewrite bool_decide_eq_true_2 by eauto. split.
        -- intros H. split; [by left | eauto].
        -- intros (_ & t' & Ht' & H). by simplify_eq.
      * rewrite bool_decide_eq_false_2 by (intros [? ?]; discriminate). split.
        -- discriminate.
        -- intros (_ & t' & Ht' & _). discriminate.
Qed.

End ResponseJson.
(** ** Powering on and listing *)

Section PowerOn.
Context {S : Type} `{!Remote S}.
Import DoDroplet.
Variable api_token : string.

(** X25: [power_on] asserts that the status is ['off']: for any other
    status it raises [AssertionError] and sends nothing.  For a droplet
    that is off and has an id, no request powers anything on:
    [_power_on_droplet] is empty, and the one request that follows is
    the fetch of [update_attr]. *)
Theorem power_on_only_fetches (d : Droplet) (w : world S) status :
  attrs d !! "status" = Some status ->
  (py_eq status (AStr "off") = false ->
   power_on api_token (d, w) =
     (Raise (AssertionError "Can only power on a closed one."), (d, w))) /\
  (py_eq status (AStr "off") = true -> is_Some (attrs d !! "id") ->
   power_on api_token (d, w) = update_attr api_token None (d, w) /\
   snd (snd (power_on api_token (d, w))) = after (show_request api_token) w).
Proof.
  intros Hs.
  assert (Hg : getattr "status" (d, w) = (Ok status, (d, w)))
    by (unfold getattr; cbn; by rewrite Hs).
  split.
  - intros Hoff. unfold power_on. rewrite (bind_eq_Ok _ _ _ _ _ Hg), Hoff. reflexivity.
  - intros Hoff [i Hi].
    assert (Hgi : getattr "id" (d, w) = (Ok i, (d, w))) by (unfold getattr; cbn; by rewrite Hi).
    assert (Heq : power_on api_token (d, w) = update_attr api_token None (d, w)).
    { unfold power_on. rewrite (bind_eq_Ok _ _ _ _ _ Hg), Hoff.
      unfold bind at 1. unfold ret at 1. rewrite (bind_eq_Ok _ _ _ _ _ Hgi). reflexivity. }
    split; [exact Heq|]. rewrite Heq.
    unfold update_attr. rewrite (bind_eq_Ok _ _ _ _ _ Hgi).
    destruct (_show_droplet api_token i w) as [r w1] eqn:Hshow.
    pose proof (show_effects _ _ _ _ _ Hshow) as [-> _].
    unfold setattrs, bind, lift, pure, ret, getitem. cbn [fst snd]. rewrite Hshow.
    repeat (case_match; simplify_eq/=); reflexivity.
Qed.

(** X26: [list_all] over a listing whose [droplets] is a list of JSON
    objects: it returns one instance for each object, in the order of
    the listing, and each instance holds the entries of its object and
    the status ['new'] where the object has none. *)
Theorem list_all_wraps_every_document (w : world S) kv (docs : list dict) :
  body (answer (listing_request api_token) w) = Some (JDict kv) ->
  kv !! "droplets" = Some (JList (map JDict docs)) ->
  fst (list_all api_token w) =
    Ok (map (fun doc => Obj (doc ∪ {[ "status" := JStr "new" ]})) docs).
Proof.
  intros Hb Hx. destruct (listing_Ok api_token w kv _ Hb Hx) as (w' & Hl).
  unfold list_all. rewrite (bind_eq_Ok _ _ _ _ _ Hl). unfold bind, pure, iter. cbn [fst].
  assert (Hmap : mapR __init__ (map JDict docs) =
                 Ok (map (fun doc => Obj (doc ∪ {[ "status" := JStr "new" ]})) docs)).
  { clear Hx Hl. induction docs as [|doc docs IH]; [reflexivity|].
    cbn [map mapR __init__ rbind]. rewrite IH. reflexivity. }
  rewrite Hmap. reflexivity.
Qed.

End PowerOn.

Lemma power_on_only_fetches_witness :
  let d := DoDroplet.Obj {[ "id" := JInt 7; "status" := JStr "off" ]} in
  let w := boot (Booting 0) in
  DoDroplet.power_on "XXX" (d, w) = DoDroplet.update_attr "XXX" None (d, w) /\
  snd (snd (DoDroplet.power_on "XXX" (d, w))) = after (DoDroplet.show_request "XXX") w.
Proof.
  cbv zeta.
  apply (power_on_only_fetches "XXX" (DoDroplet.Obj {[ "id" := JInt 7; "status" := JStr "off" ]})
           (boot (Booting 0)) (JStr "off")).
  - reflexivity.
  - reflexivity.
  - eexists. reflexivity.
Defined.

Lemma list_all_wraps_every_document_witness :
  fst (DoDroplet.list_all "XXX" (boot two_droplets)) =
    Ok (map (fun doc => DoDroplet.Obj (doc ∪ {[ "status" := JStr "new" ]}))
          [droplet_doc 1 "a" "active"; droplet_doc 2 "b" "new"]).
Proof.
  apply (list_all_wraps_every_document "XXX" (boot two_droplets)
           {[ "droplets" := JList (map JDict [droplet_doc 1 "a" "active"; droplet_doc 2 "b" "new"]);
              "links" := JDict ∅;
              "meta" := JDict {[ "total" := JInt 2 ]} ]}).
  - reflexivity.
  - reflexivity.
Defined.
